(** * plaso: the Mac OS X appfirewall.log parser

    A shallow embedding of [plaso/parsers/mac_appfirewall.py] and of the
    library behaviour it relies on, followed by the properties of the
    parser's per-line state machine. *)

From Stdlib Require Import ZArith List String Ascii Bool Lia.
From Stdlib Require DecimalString.
Import ListNotations.
Local Open Scope string_scope.
Local Open Scope Z_scope.

Set Implicit Arguments.

(** ** Python values used by the parser *)

Module Py.

(** Truth value of an integer: [not x] holds exactly for [0]. *)
Definition truthy (x : Z) : bool := negb (x =? 0).

(** Truth value of an integer-or-[None] attribute such as [_last_month]. *)
Definition truthy_opt (x : option Z) : bool :=
  match x with
  | None => false
  | Some v => truthy v
  end.

(** Python 2 ordering [a < b] between integers and [None]: [None] sorts
    before every integer and is not smaller than itself. *)
Definition lt (a b : option Z) : bool :=
  match a, b with
  | Some x, Some y => x <? y
  | None, Some _ => true
  | _, None => false
  end.

Definition byte_of (c : ascii) : Z := Z.of_N (N_of_ascii c).

Definition in_range (lo hi : Z) (c : ascii) : bool :=
  (lo <=? byte_of c) && (byte_of c <=? hi).

Definition is_upper : ascii -> bool := in_range 65 90.
Definition is_lower : ascii -> bool := in_range 97 122.
Definition is_digit : ascii -> bool := in_range 48 57.

(** [string.whitespace]: space, tab, newline, vertical tab, form feed,
    carriage return. *)
Definition is_space (c : ascii) : bool :=
  (byte_of c =? 32) || in_range 9 13 c.

Definition lower_char (c : ascii) : ascii :=
  if is_upper c then ascii_of_N (N_of_ascii c + 32) else c.

(** [str.lower()] on a byte string. *)
Fixpoint lower (s : string) : string :=
  match s with
  | EmptyString => EmptyString
  | String c s' => String (lower_char c) (lower s')
  end.

Fixpoint lstrip (s : string) : string :=
  match s with
  | EmptyString => EmptyString
  | String c s' => if is_space c then lstrip s' else s
  end.

(** Right strip, written as one pass: a suffix made of whitespace only is
    dropped. *)
Fixpoint rstrip (s : string) : string :=
  match s with
  | EmptyString => EmptyString
  | String c s' =>
      match rstrip s' with
      | EmptyString => if is_space c then EmptyString else String c EmptyString
      | r => String c r
      end
  end.

(** [str.strip()]. *)
Definition strip (s : string) : string := rstrip (lstrip s).

Fixpoint bytes (s : string) : list Z :=
  match s with
  | EmptyString => []
  | String c s' => byte_of c :: bytes s'
  end.

(** A [unicode] object, as its sequence of code points. *)
Definition unicode := list Z.

(** The text of a [u'...'] literal whose characters are all ASCII. *)
Definition u (s : string) : unicode := bytes s.

End Py.

(** ** The UTF-8 codec of [str.decode]

    The decoder follows CPython 2.7's [PyUnicode_DecodeUTF8Stateful]: the
    length of a sequence is read off its first byte, a sequence that is
    malformed is reported to the error handler over the bytes it spans,
    and decoding resumes behind that span. *)

Module Utf8.

Inductive errors := strict | ignore | replace.

Definition REPLACEMENT_CHARACTER : Z := 0xFFFD.

Definition utf8_code_length (ch : Z) : Z :=
  if ch <? 0x80 then 1
  else if ch <? 0xC2 then 0
  else if ch <? 0xE0 then 2
  else if ch <? 0xF0 then 3
  else if ch <? 0xF5 then 4
  else 0.

Definition is_cont (b : Z) : bool := Z.land b 0xC0 =? 0x80.

(** The result is [None] when [UnicodeDecodeError] is raised. *)
Definition on_char (ch : Z) (tail : option Py.unicode) : option Py.unicode :=
  option_map (cons ch) tail.

Definition on_error (e : errors) (tail : option Py.unicode)
  : option Py.unicode :=
  match e with
  | strict => None
  | ignore => tail
  | replace => option_map (cons REPLACEMENT_CHARACTER) tail
  end.

Definition ch2 (b0 b1 : Z) : Z :=
  Z.shiftl (Z.land b0 0x1f) 6 + Z.land b1 0x3f.

Definition ch3 (b0 b1 b2 : Z) : Z :=
  Z.shiftl (Z.land b0 0x0f) 12 + Z.shiftl (Z.land b1 0x3f) 6
  + Z.land b2 0x3f.

Definition ch4 (b0 b1 b2 b3 : Z) : Z :=
  Z.shiftl (Z.land b0 0x07) 18 + Z.shiftl (Z.land b1 0x3f) 12
  + Z.shiftl (Z.land b2 0x3f) 6 + Z.land b3 0x3f.

Fixpoint decode (e : errors) (s : list Z) {struct s} : option Py.unicode :=
  match s with
  | [] => Some []
  | b0 :: s1 =>
      let n := utf8_code_length b0 in
      if n =? 1 then on_char b0 (decode e s1)
      else if n =? 2 then
        match s1 with
        | [] => on_error e (Some [])
        | b1 :: s2 =>
            if is_cont b1 then on_char (ch2 b0 b1) (decode e s2)
            else on_error e (decode e s1)
        end
      else if n =? 3 then
        match s1 with
        | [] => on_error e (Some [])
        | b1 :: s2 =>
            match s2 with
            | [] =>
                (* unexpected end of data *)
                if is_cont b1 then on_error e (Some [])
                else on_error e (decode e s1)
            | b2 :: s3 =>
                if negb (is_cont b1) || negb (is_cont b2)
                   || ((b0 =? 0xE0) && (b1 <? 0xA0))
                then
                  (* invalid continuation byte *)
                  if is_cont b1 then on_error e (decode e s2)
                  else on_error e (decode e s1)
                else on_char (ch3 b0 b1 b2) (decode e s3)
            end
        end
      else if n =? 4 then
        match s1 with
        | [] => on_error e (Some [])
        | b1 :: s2 =>
            match s2 with
            | [] =>
                if is_cont b1 then on_error e (Some [])
                else on_error e (decode e s1)
            | b2 :: s3 =>
                match s3 with
                | [] =>
                    if is_cont b1 then
                      if is_cont b2 then on_error e (Some [])
                      else on_error e (decode e s2)
                    else on_error e (decode e s1)
                | b3 :: s4 =>
                    if negb (is_cont b1) || negb (is_cont b2)
                       || negb (is_cont b3)
                       || ((b0 =? 0xF0) && (b1 <? 0x90))
                       || ((b0 =? 0xF4) && (0x8F <? b1))
                    then
                      if is_cont b1 then
                        if is_cont b2 then on_error e (decode e s3)
                        else on_error e (decode e s2)
                      else on_error e (decode e s1)
                    else on_char (ch4 b0 b1 b2 b3) (decode e s4)
                end
            end
        end
      else
        (* invalid start byte *)
        on_error e (decode e s1)
  end.

(** [s.decode('utf-8', errors)] on a byte string. *)
Definition str_decode (e : errors) (s : string) : option Py.unicode :=
  decode e (Py.bytes s).

End Utf8.

(** ** Calendar arithmetic of [datetime] and [timelib] *)

Module datetime.

Definition MINYEAR : Z := 1.
Definition MAXYEAR : Z := 9999.

Definition is_leap (y : Z) : bool :=
  ((y mod 4 =? 0) && negb (y mod 100 =? 0)) || (y mod 400 =? 0).

Definition days_in_month (y m : Z) : Z :=
  if m =? 2 then (if is_leap y then 29 else 28)
  else if (m =? 4) || (m =? 6) || (m =? 9) || (m =? 11) then 30
  else 31.

(** What the constructor [datetime.datetime(y, m, d, hh, mm, ss)] accepts;
    anything else raises [ValueError]. *)
Definition valid (y m d hh mm ss : Z) : bool :=
  (MINYEAR <=? y) && (y <=? MAXYEAR)
  && (1 <=? m) && (m <=? 12)
  && (1 <=? d) && (d <=? days_in_month y m)
  && (0 <=? hh) && (hh <=? 23)
  && (0 <=? mm) && (mm <=? 59)
  && (0 <=? ss) && (ss <=? 59).

(** Days between 1970-01-01 and the given proleptic Gregorian date. *)
Definition days_from_civil (y m d : Z) : Z :=
  let y' := if m <=? 2 then y - 1 else y in
  let era := y' / 400 in
  let yoe := y' - era * 400 in
  let doy := (153 * (m + (if 2 <? m then -3 else 9)) + 2) / 5 + d - 1 in
  let doe := yoe * 365 + yoe / 4 - yoe / 100 + doy in
  era * 146097 + doe - 719468.

(** [calendar.timegm] of a valid date and time. *)
Definition timegm (y m d hh mm ss : Z) : Z :=
  days_from_civil y m d * 86400 + hh * 3600 + mm * 60 + ss.

(** The year of the day that lies [z] days after 1970-01-01. *)
Definition year_from_days (z : Z) : Z :=
  let z := z + 719468 in
  let era := z / 146097 in
  let doe := z - era * 146097 in
  let yoe := (doe - doe / 1460 + doe / 36524 - doe / 146096) / 365 in
  let doy := doe - (365 * yoe + yoe / 4 - yoe / 100) in
  let mp := (5 * doy + 2) / 153 in
  let m := mp + (if mp <? 10 then 3 else -9) in
  yoe + era * 400 + (if m <=? 2 then 1 else 0).

(** A [tzinfo] value, as the offset east of UTC, in seconds, that it
    gives to an instant. *)
Record tzinfo := { utcoffset : Z -> Z }.

Definition UTC : tzinfo := {| utcoffset := fun _ => 0 |}.

Definition year_in_range (y : Z) : bool := (MINYEAR <=? y) && (y <=? MAXYEAR).

(** The largest magnitude that the conversion of an integer argument to a
    C double does not reach: from it on the conversion itself raises
    [OverflowError]. *)
Definition DOUBLE_OVERFLOW : Z := 2 ^ 1024 - 2 ^ 970.

(** How [datetime.datetime.fromtimestamp(time, timezone)] ends. *)
Inductive conversion :=
| converted (year : Z)
| raises_ValueError
| raises_OverflowError.

(** [datetime.datetime.fromtimestamp(time, timezone)], down to the year of
    its result.  The UTC date of the instant is built first: a year
    outside [MINYEAR .. MAXYEAR] raises [ValueError].  [timezone.fromutc]
    then adds the offset of the zone: a sum that leaves the range of
    years raises [OverflowError]. *)
Definition fromtimestamp (time : Z) (timezone : tzinfo) : conversion :=
  if DOUBLE_OVERFLOW <=? Z.abs time then raises_OverflowError
  else if year_in_range (year_from_days (time / 86400)) then
    let y := year_from_days ((time + utcoffset timezone time) / 86400) in
    if year_in_range y then converted y else raises_OverflowError
  else raises_ValueError.

(** [datetime.datetime.fromtimestamp(time, timezone).year] where the
    conversion succeeds; [None] where it raises, whichever the error. *)
Definition fromtimestamp_year (time : Z) (timezone : tzinfo) : option Z :=
  match fromtimestamp time timezone with
  | converted y => Some y
  | raises_ValueError | raises_OverflowError => None
  end.

End datetime.

Module timelib.

(** Modelled from the spec: [timelib.MONTH_DICT], of [plaso/lib/timelib.py],
    lies outside the sources verified here; it maps the lower-case
    three-letter month abbreviations to the month numbers 1 to 12. *)
Definition MONTH_DICT : list (string * Z) :=
  [("jan", 1); ("feb", 2); ("mar", 3); ("apr", 4); ("may", 5); ("jun", 6);
   ("jul", 7); ("aug", 8); ("sep", 9); ("oct", 10); ("nov", 11);
   ("dec", 12)].

(** [d.get(key)]: the value, or [None]. *)
Fixpoint get (d : list (string * Z)) (key : string) : option Z :=
  match d with
  | [] => None
  | (k, v) :: d' => if String.eqb k key then Some v else get d' key
  end.

Definition MICRO_SECONDS_PER_SECOND : Z := 1000000.

(** Modelled from the spec: [timelib.Timestamp.FromTimeParts], of
    [plaso/lib/timelib.py], lies outside the sources verified here.  The
    timestamp composer takes (year, month, day, hour, minute, second) to
    the absolute instant, in microseconds since 1970-01-01 00:00:00 UTC;
    [None] stands for the failure on components that do not form a valid
    calendar date and time. *)
Definition FromTimeParts (year month day hour minutes seconds : Z)
  : option Z :=
  if datetime.valid year month day hour minutes seconds
  then Some (datetime.timegm year month day hour minutes seconds
             * MICRO_SECONDS_PER_SECOND)
  else None.

End timelib.

(** ** The pyparsing elements the grammar is built from

    An element is run on the text that remains to be read; it fails
    ([None], for [ParseException]) or returns its token and the text
    behind it. *)

Module pyparsing.

Definition ParserElement (T : Type) : Type := string -> option (T * string).

Definition ret {T} (x : T) : ParserElement T := fun s => Some (x, s).

Definition bind {T U} (p : ParserElement T) (k : T -> ParserElement U)
  : ParserElement U :=
  fun s =>
    match p s with
    | Some (x, s') => k x s'
    | None => None
    end.

Fixpoint mem (c : ascii) (chars : string) : bool :=
  match chars with
  | EmptyString => false
  | String c' chars' => Ascii.eqb c c' || mem c chars'
  end.

(** [printables]: the ASCII characters that are neither whitespace nor
    control characters. *)
Definition printables : ascii -> bool := Py.in_range 33 126.
Definition nums : ascii -> bool := Py.is_digit.
Definition uppercase : ascii -> bool := Py.is_upper.
Definition lowercase : ascii -> bool := Py.is_lower.

Definition TAB : ascii := ascii_of_nat 9.
Definition LF : ascii := ascii_of_nat 10.
Definition CR : ascii := ascii_of_nat 13.

Definition DEFAULT_WHITE_CHARS : string :=
  String " " (String LF (String TAB (String CR EmptyString))).

(** [preParse]: skip the element's whitespace characters. *)
Fixpoint preParse (whiteChars : string) (s : string) : string :=
  match s with
  | EmptyString => EmptyString
  | String c s' => if mem c whiteChars then preParse whiteChars s' else s
  end.

(** The longest prefix of at most [limit] characters that satisfy [p],
    and the rest. *)
Fixpoint span_upto (p : ascii -> bool) (limit : option nat) (s : string)
  : string * string :=
  match s with
  | EmptyString => (EmptyString, EmptyString)
  | String c s' =>
      match limit with
      | Some O => (EmptyString, s)
      | _ =>
          if p c then
            let '(a, b) := span_upto p (option_map Nat.pred limit) s' in
            (String c a, b)
          else (EmptyString, s)
      end
  end.

Definition next_satisfies (p : ascii -> bool) (s : string) : bool :=
  match s with
  | EmptyString => false
  | String c _ => p c
  end.

(** [Word(initChars, bodyChars, min, max, exact)]; 0 stands for an
    argument that is not given, as in pyparsing. *)
Definition Word (initChars bodyChars : ascii -> bool) (min max exact : nat)
  : ParserElement string :=
  fun s =>
    match preParse DEFAULT_WHITE_CHARS s with
    | EmptyString => None
    | String c s' =>
        if negb (initChars c) then None
        else
          let maxLen :=
            if Nat.ltb 0 exact then Some exact
            else if Nat.ltb 0 max then Some max else None in
          let minLen := if Nat.ltb 0 exact then exact else min in
          let '(body, rest) :=
            span_upto bodyChars (option_map Nat.pred maxLen) s' in
          let token := String c body in
          if Nat.ltb (String.length token) minLen then None
          else if Nat.ltb 0 max && next_satisfies bodyChars rest then None
          else Some (token, rest)
    end.

Fixpoint strip_prefix (m s : string) : option string :=
  match m, s with
  | EmptyString, _ => Some s
  | String a m', String b s' =>
      if Ascii.eqb a b then strip_prefix m' s' else None
  | String _ _, EmptyString => None
  end.

(** [Literal(matchString)]. *)
Definition Literal (matchString : string) : ParserElement string :=
  fun s =>
    match strip_prefix matchString (preParse DEFAULT_WHITE_CHARS s) with
    | Some rest => Some (matchString, rest)
    | None => None
    end.

(** [CharsNotIn(notChars)]: at least one character, none of them in
    [notChars]; this element does not skip leading whitespace. *)
Definition CharsNotIn (notChars : string) : ParserElement string :=
  fun s =>
    match span_upto (fun c => negb (mem c notChars)) None s with
    | (EmptyString, _) => None
    | (token, rest) => Some (token, rest)
    end.

(** [SkipTo(lineEnd)]: the text up to the next line feed or the end of
    the input; [lineEnd] leaves the line feed out of its whitespace. *)
Definition SkipTo_lineEnd : ParserElement string :=
  fun s =>
    Some (span_upto (fun c => negb (Ascii.eqb c LF)) None
            (preParse (String " " (String TAB (String CR EmptyString))) s)).

(** [str.expandtabs()]: tab stops every 8 columns, the column starting
    again behind a line feed or carriage return. *)
Fixpoint expandtabs_from (column : nat) (s : string) : string :=
  match s with
  | EmptyString => EmptyString
  | String c s' =>
      if Ascii.eqb c TAB then
        let incr := (8 - Nat.modulo column 8)%nat in
        (String.concat "" (repeat " " incr)
         ++ expandtabs_from (column + incr) s')%string
      else if Ascii.eqb c LF || Ascii.eqb c CR then
        String c (expandtabs_from 0 s')
      else String c (expandtabs_from (S column) s')
  end.

(** [expr.parseString(instring)]: tabs are expanded first, and the text
    behind the match is not looked at. *)
Definition parseString {T} (expr : ParserElement T) (instring : string)
  : option T :=
  match expr (expandtabs_from 0 instring) with
  | Some (tokens, _) => Some tokens
  | None => None
  end.

End pyparsing.

(** ** [text_parser.PyparsingConstants] *)

Module text_parser.

Import pyparsing.

Local Notation "x <- p ;; q" := (bind p (fun x => q))
  (at level 61, p at next level, right associativity).

(** [int(token)] of a token made of decimal digits. *)
Definition int_of_digits (token : string) : Z :=
  fold_left (fun acc d => acc * 10 + (d - 48)) (Py.bytes token) 0.

(** Modelled from the spec: [PyparsingConstants.MONTH], of
    [plaso/parsers/text_parser.py], lies outside the sources verified
    here; it is a three-letter month token, a capital followed by two
    small letters. *)
Definition MONTH : ParserElement string := Word uppercase lowercase 1 0 3.

(** Modelled from the spec: [PyparsingConstants.TWO_DIGITS], missing like
    [MONTH]; a number of exactly two digits, cast to an integer. *)
Definition TWO_DIGITS : ParserElement Z :=
  token <- Word nums nums 1 0 2 ;; ret (int_of_digits token).

(** Modelled from the spec: [PyparsingConstants.ONE_OR_TWO_DIGITS], missing
    like [MONTH]; a number of one or two digits, cast to an integer. *)
Definition ONE_OR_TWO_DIGITS : ParserElement Z :=
  token <- Word nums nums 1 2 0 ;; ret (int_of_digits token).

(** Modelled from the spec: [PyparsingConstants.TIME], missing like
    [MONTH]; the group HH:MM:SS of three numbers of two digits. *)
Definition TIME : ParserElement (Z * Z * Z) :=
  hour <- TWO_DIGITS ;;
  _ <- Literal ":" ;;
  minute <- TWO_DIGITS ;;
  _ <- Literal ":" ;;
  second <- TWO_DIGITS ;;
  ret (hour, minute, second).

End text_parser.

(** ** [plaso/parsers/mac_appfirewall.py] *)

Module ParseResults.

(** The named results of a parsed line.  A name that the matched
    structure does not set reads as the empty string. *)
Record t := {
  month : string;
  day : Z;
  time : Z * Z * Z;
  computer_name : string;
  agent : string;
  status : string;
  process_name : string;
  action : string
}.

End ParseResults.

Module MacAppFirewallLogEvent.

Inductive EventTimestamp := ADDED_TIME.

Record t := {
  timestamp : Z;
  timestamp_desc : EventTimestamp;
  action : Py.unicode;
  agent : string;
  computer_name : string;
  process_name : string;
  status : string
}.

Definition DATA_TYPE : string := "mac:asl:appfirewall:line".

Definition __init__ (timestamp : Z) (structure : ParseResults.t)
           (process_name : string) (action : Py.unicode) : t :=
  {| timestamp := timestamp;
     timestamp_desc := ADDED_TIME;
     action := action;
     agent := ParseResults.agent structure;
     computer_name := ParseResults.computer_name structure;
     process_name := process_name;
     status := ParseResults.status structure |}.

End MacAppFirewallLogEvent.

Module MacAppFirewallParser.

Import pyparsing text_parser.

(** *** The two line structures *)

Section Grammar.

Local Notation "x <- p ;; q" := (pyparsing.bind p (fun x => q))
  (at level 61, p at next level, right associativity).

Definition FIREWALL_LINE : ParserElement ParseResults.t :=
  month <- MONTH ;;
  day <- ONE_OR_TWO_DIGITS ;;
  time <- TIME ;;
  computer_name <- Word printables printables 1 0 0 ;;
  agent <- Word printables printables 1 0 0 ;;
  _ <- Literal "<" ;;
  status <- CharsNotIn ">" ;;
  _ <- Literal ">:" ;;
  process_name <- CharsNotIn ":" ;;
  _ <- Literal ":" ;;
  action <- SkipTo_lineEnd ;;
  pyparsing.ret
    {| ParseResults.month := month;
       ParseResults.day := day;
       ParseResults.time := time;
       ParseResults.computer_name := computer_name;
       ParseResults.agent := agent;
       ParseResults.status := status;
       ParseResults.process_name := process_name;
       ParseResults.action := action |}.

Definition REPEATED_LINE : ParserElement ParseResults.t :=
  month <- MONTH ;;
  day <- ONE_OR_TWO_DIGITS ;;
  time <- TIME ;;
  _ <- Literal "---" ;;
  process_name <- CharsNotIn "---" ;;
  _ <- Literal "---" ;;
  pyparsing.ret
    {| ParseResults.month := month;
       ParseResults.day := day;
       ParseResults.time := time;
       ParseResults.computer_name := "";
       ParseResults.agent := "";
       ParseResults.status := "";
       ParseResults.process_name := process_name;
       ParseResults.action := "" |}.

End Grammar.

Definition LINE_STRUCTURES : list (string * ParserElement ParseResults.t) :=
  [("logline", FIREWALL_LINE); ("repeated", REPEATED_LINE)].

(** *** The parser object and its collaborators *)

Record t := {
  _year_use : Z;
  _last_month : option Z;
  previous_structure : option ParseResults.t
}.

Definition __init__ : t :=
  {| _year_use := 0; _last_month := None; previous_structure := None |}.

Record ParserMediator := {
  year : Z;
  timezone : datetime.tzinfo
}.

(** The stat object of the file entry; an attribute that is missing or
    [None] is [None] here. *)
Record VFSStat := {
  crtime : option Z;
  ctime : option Z
}.

(** What the parser reads from its surroundings: the mediator, the
    result of [self.file_entry.GetStat()] and the year that
    [timelib.GetCurrentYear()] returns. *)
Record Host := {
  parser_mediator : ParserMediator;
  GetStat : option VFSStat;
  GetCurrentYear : Z
}.

Inductive Level := DEBUG | WARNING | ERROR.

(** What a method does to its surroundings, in order. *)
Inductive Effect :=
| logging (level : Level) (message : string)
| read_year
| call_GetStat
| call_GetCurrentYear
| ProduceEvent (event_object : MacAppFirewallLogEvent.t).

Inductive Exception :=
  AttributeError | TypeError | UnicodeDecodeError | OverflowError.

Inductive Outcome (A : Type) :=
| Returned (a : A)
| Raised (e : Exception).
Arguments Raised {A} e.

(** A method of the parser: it starts from the object's attributes and
    yields its outcome, the attributes it leaves behind (also when it
    raises) and its effects. *)
Definition M (A : Type) : Type := t -> Outcome A * t * list Effect.

Definition ret {A} (a : A) : M A := fun self => (Returned a, self, []).

Definition bind {A B} (m : M A) (k : A -> M B) : M B :=
  fun self =>
    match m self with
    | (Returned a, self', effects) =>
        let '(outcome, self'', effects') := k a self' in
        (outcome, self'', (effects ++ effects')%list)
    | (Raised e, self', effects) => (Raised e, self', effects)
    end.

Definition raise {A} (e : Exception) : M A :=
  fun self => (Raised e, self, []).

Definition effect (e : Effect) : M unit :=
  fun self => (Returned tt, self, [e]).

Definition get {A} (attribute : t -> A) : M A :=
  fun self => (Returned (attribute self), self, []).

Definition set_year_use (v : Z) : M unit :=
  fun self =>
    (Returned tt,
     {| _year_use := v;
        _last_month := _last_month self;
        previous_structure := previous_structure self |}, []).

Definition set_last_month (v : option Z) : M unit :=
  fun self =>
    (Returned tt,
     {| _year_use := _year_use self;
        _last_month := v;
        previous_structure := previous_structure self |}, []).

Definition set_previous_structure (v : option ParseResults.t) : M unit :=
  fun self =>
    (Returned tt,
     {| _year_use := _year_use self;
        _last_month := _last_month self;
        previous_structure := v |}, []).

Definition when (c : bool) (m : M unit) : M unit :=
  if c then m else ret tt.

Definition outcome {A} (r : Outcome A * t * list Effect) : Outcome A :=
  fst (fst r).
Definition self_after {A} (r : Outcome A * t * list Effect) : t :=
  snd (fst r).
Definition effects {A} (r : Outcome A * t * list Effect) : list Effect :=
  snd r.

(** The events delivered to [parser_mediator.ProduceEvent], in order. *)
Fixpoint events (l : list Effect) : list MacAppFirewallLogEvent.t :=
  match l with
  | [] => []
  | ProduceEvent e :: l' => e :: events l'
  | _ :: l' => events l'
  end.

(** *** The methods *)

Local Notation "x <- m ;; k" := (bind m (fun x => k))
  (at level 61, m at next level, right associativity).
Local Notation "m ;;; k" := (bind m (fun _ => k))
  (at level 61, right associativity).

(** [getattr(stat, name, 0)]. *)
Definition getattr (stat : option VFSStat) (name : VFSStat -> option Z)
           (default : Z) : Z :=
  match stat with
  | None => default
  | Some stat =>
      match name stat with
      | Some v => v
      | None => default
      end
  end.

Definition timelib_GetCurrentYear (host : Host) : M Z :=
  effect call_GetCurrentYear ;;; ret (GetCurrentYear host).

Definition VerifyStructure (line : string) : M bool :=
  match parseString FIREWALL_LINE line with
  | None =>
      effect (logging DEBUG "Not a Mac AppFirewall log file") ;;;
      ret false
  | Some line =>
      if negb (String.eqb (ParseResults.action line)
                 "creating /var/log/appfirewall.log")
         || negb (String.eqb (ParseResults.status line) "Error")
      then ret false
      else ret true
  end.

(** A [None] month is not an integer: the date constructor under
    [FromTimeParts] rejects it with [TypeError], which the handler for
    [ValueError] does not catch. *)
Definition _GetTimestamp (day : Z) (month : option Z) (year : Z)
           (time : Z * Z * Z) : M Z :=
  let '(hour, minute, second) := time in
  match month with
  | None => raise TypeError
  | Some month =>
      match timelib.FromTimeParts year month day hour minute second with
      | Some timestamp => ret timestamp
      | None => ret 0
      end
  end.

(** A conversion that fails is taken here as line 227 takes
    [ValueError].  The conversion that fails with [OverflowError], which
    that line does not catch, is told apart in [Overflow._GetYear]. *)
Definition _GetYear (host : Host) (stat : option VFSStat)
           (timezone : datetime.tzinfo) : M Z :=
  let time := getattr stat crtime 0 in
  let time := if negb (Py.truthy time) then getattr stat ctime 0 else time in
  if negb (Py.truthy time) then
    effect (logging ERROR
              ("Unable to determine correct year of log file, defaulting to "
               ++ "current year.")) ;;;
    timelib_GetCurrentYear host
  else
    match datetime.fromtimestamp_year time timezone with
    | None =>
        effect (logging ERROR
                  ("Unable to determine correct year of log file with error"
                   ++ ", defaulting to current year.")) ;;;
        timelib_GetCurrentYear host
    | Some year => ret year
    end.

(** [structure.action] and [structure.process_name], where [structure]
    may be [None]. *)
Definition attribute {A} (structure : option ParseResults.t)
           (name : ParseResults.t -> A) : M A :=
  match structure with
  | None => raise AttributeError
  | Some structure => ret (name structure)
  end.

Definition _ParseLogLine (host : Host) (structure : ParseResults.t)
           (key : string) : M unit :=
  year_use <- get _year_use ;;
  when (negb (Py.truthy year_use))
    (effect read_year ;;;
     set_year_use (year (parser_mediator host))) ;;;
  year_use <- get _year_use ;;
  when (negb (Py.truthy year_use))
    (effect call_GetStat ;;;
     year <- _GetYear host (GetStat host)
               (timezone (parser_mediator host)) ;;
     set_year_use year ;;;
     year_use <- get _year_use ;;
     when (negb (Py.truthy year_use))
       (year <- timelib_GetCurrentYear host ;; set_year_use year)) ;;;
  let month :=
    timelib.get timelib.MONTH_DICT (Py.lower (ParseResults.month structure))
  in
  last_month <- get _last_month ;;
  when (negb (Py.truthy_opt last_month)) (set_last_month month) ;;;
  last_month <- get _last_month ;;
  when (Py.lt month last_month)
    (year_use <- get _year_use ;; set_year_use (year_use + 1)) ;;;
  year_use <- get _year_use ;;
  timestamp <- _GetTimestamp (ParseResults.day structure) month year_use
                 (ParseResults.time structure) ;;
  if negb (Py.truthy timestamp) then
    effect (logging DEBUG "Invalid timestamp ")
  else
    set_last_month month ;;;
    structure <-
      (if String.eqb key "logline" then
         set_previous_structure (Some structure) ;;; ret (Some structure)
       else get previous_structure) ;;
    raw <- attribute structure ParseResults.action ;;
    action <-
      match Utf8.str_decode Utf8.strict raw with
      | Some action => ret action
      | None =>
          effect (logging WARNING
                    "Decode UTF8 failed, the message string may be cut short.") ;;;
          match Utf8.str_decode Utf8.ignore raw with
          | Some action => ret action
          | None => raise UnicodeDecodeError
          end
      end ;;
    process_name <- attribute structure ParseResults.process_name ;;
    match structure with
    | None => raise AttributeError
    | Some structure =>
        effect (ProduceEvent
                  (MacAppFirewallLogEvent.__init__ timestamp structure
                     (Py.strip process_name) action))
    end.

Definition ParseRecord (host : Host) (key : string)
           (structure : ParseResults.t) : M unit :=
  if String.eqb key "logline" || String.eqb key "repeated" then
    _ParseLogLine host structure key
  else
    effect (logging WARNING
              ("Unable to parse record, unknown structure: " ++ key)).

(** The records of one file, handed to [ParseRecord] in order; an
    exception that leaves [ParseRecord] ends the loop. *)
Fixpoint ParseRecords (host : Host) (records : list (string * ParseResults.t))
  : M unit :=
  match records with
  | [] => ret tt
  | (key, structure) :: records' =>
      ParseRecord host key structure ;;; ParseRecords host records'
  end.

(** The first of the line structures that matches, with its key. *)
Fixpoint first_match
         (structures : list (string * ParserElement ParseResults.t))
         (line : string) : option (string * ParseResults.t) :=
  match structures with
  | [] => None
  | (key, structure) :: structures' =>
      match parseString structure line with
      | Some parsed_structure => Some (key, parsed_structure)
      | None => first_match structures' line
      end
  end.

(** Modelled from the spec: the line loop of the base class
    [text_parser.PyparsingSingleLineTextParser] lies outside the sources
    verified here.  Each line is tried as a full record first and as a
    repeated marker second; the record of the first match goes to
    [ParseRecord] under its key; a line that fits neither is reported at
    debug severity and skipped. *)
Definition ParseLine (host : Host) (line : string) : M unit :=
  match first_match LINE_STRUCTURES line with
  | Some (key, structure) => ParseRecord host key structure
  | None => effect (logging DEBUG ("Unable to parse log line: " ++ line))
  end.

(** Modelled from the spec: the lines of one file, in order, through the
    loop of the base class that [ParseLine] stands for. *)
Fixpoint ParseLines (host : Host) (lines : list string) : M unit :=
  match lines with
  | [] => ret tt
  | line :: lines' => ParseLine host line ;;; ParseLines host lines'
  end.

End MacAppFirewallParser.

(** ** Derived forms of [_ParseLogLine]

    The values that [_ParseLogLine] computes on its way: the year left by
    lines 140-149, the month check of lines 152-156 and the timestamp of
    lines 157-161.  [ParseLogLine_run] below shows that they are what the
    method computes. *)

Module Derived.

Import MacAppFirewallParser.

(** [timelib.MONTH_DICT.get(structure.month.lower())]. *)
Definition month_of (structure : ParseResults.t) : option Z :=
  timelib.get timelib.MONTH_DICT (Py.lower (ParseResults.month structure)).

(** The time that [_GetYear] reads from the stat object: [crtime], or
    [ctime] when [crtime] is missing or zero. *)
Definition stat_time (stat : option VFSStat) : Z :=
  if Py.truthy (getattr stat crtime 0) then getattr stat crtime 0
  else getattr stat ctime 0.

Definition GetYear_value (host : Host) : Z :=
  if Py.truthy (stat_time (GetStat host)) then
    match datetime.fromtimestamp_year (stat_time (GetStat host))
            (timezone (parser_mediator host)) with
    | Some y => y
    | None => GetCurrentYear host
    end
  else GetCurrentYear host.

Definition GetYear_effects (host : Host) : list Effect :=
  if Py.truthy (stat_time (GetStat host)) then
    match datetime.fromtimestamp_year (stat_time (GetStat host))
            (timezone (parser_mediator host)) with
    | Some y => []
    | None =>
        [logging ERROR
           ("Unable to determine correct year of log file with error"
            ++ ", defaulting to current year.");
         call_GetCurrentYear]
    end
  else
    [logging ERROR
       ("Unable to determine correct year of log file, defaulting to "
        ++ "current year.");
     call_GetCurrentYear].

(** [self._year_use] after lines 140-149. *)
Definition year_after_resolution (host : Host) (self : t) : Z :=
  if Py.truthy (_year_use self) then _year_use self
  else if Py.truthy (year (parser_mediator host))
  then year (parser_mediator host)
  else if Py.truthy (GetYear_value host) then GetYear_value host
  else GetCurrentYear host.

Definition resolution_effects (host : Host) (self : t) : list Effect :=
  if Py.truthy (_year_use self) then []
  else if Py.truthy (year (parser_mediator host)) then [read_year]
  else
    (read_year :: call_GetStat :: GetYear_effects host
     ++ (if Py.truthy (GetYear_value host) then []
         else [call_GetCurrentYear]))%list.

(** [self._last_month] after lines 153-154. *)
Definition last_month_checked (last_month month : option Z) : option Z :=
  if Py.truthy_opt last_month then last_month else month.

(** The test of line 155. *)
Definition rollover (last_month month : option Z) : bool :=
  Py.lt month (last_month_checked last_month month).

(** [self._year_use] as line 160 passes it to [_GetTimestamp]. *)
Definition year_in_use (host : Host) (self : t) (structure : ParseResults.t)
  : Z :=
  year_after_resolution host self
  + (if rollover (_last_month self) (month_of structure) then 1 else 0).

(** The attributes when line 157 is reached. *)
Definition self_at_composition (host : Host) (self : t)
           (structure : ParseResults.t) : t :=
  {| _year_use := year_in_use host self structure;
     _last_month := last_month_checked (_last_month self) (month_of structure);
     previous_structure := previous_structure self |}.

(** [timelib.Timestamp.FromTimeParts] on the line's own day and time,
    its month number [month] and the year in use. *)
Definition composed (host : Host) (self : t) (structure : ParseResults.t)
           (month : Z) : option Z :=
  let '(hour, minute, second) := ParseResults.time structure in
  timelib.FromTimeParts (year_in_use host self structure) month
    (ParseResults.day structure) hour minute second.

(** The line passes the check of line 162: its month is known and its
    timestamp is not the zero that stands for failure. *)
Definition accepted (host : Host) (self : t) (structure : ParseResults.t)
  : bool :=
  match month_of structure with
  | None => false
  | Some month =>
      match composed host self structure month with
      | Some timestamp => Py.truthy timestamp
      | None => false
      end
  end.

(** The text that lines 175-180 make of the raw action. *)
Definition decoded_action (raw : string) : option Py.unicode :=
  match Utf8.str_decode Utf8.strict raw with
  | Some action => Some action
  | None => Utf8.str_decode Utf8.ignore raw
  end.

Definition decode_effects (raw : string) : list Effect :=
  match Utf8.str_decode Utf8.strict raw with
  | Some _ => []
  | None =>
      [logging WARNING
         "Decode UTF8 failed, the message string may be cut short."]
  end.

End Derived.

(** ** The conversion error that line 227 does not catch

    [datetime.datetime.fromtimestamp] ends in a year, in [ValueError] or
    in [OverflowError] ([datetime.fromtimestamp]).  The handler of line
    227 names [ValueError] alone, so [OverflowError] leaves [_GetYear]
    and, through line 145, [_ParseLogLine].  The two methods are given
    here with that exit.  Those of [MacAppFirewallParser] take every
    failed conversion for the handled one: they are the methods below
    wherever [raises] is false ([ParseLogLine_without_overflow]). *)

Module Overflow.

Import MacAppFirewallParser.

Local Notation "x <- m ;; k" := (bind m (fun x => k))
  (at level 61, m at next level, right associativity).
Local Notation "m ;;; k" := (bind m (fun _ => k))
  (at level 61, right associativity).

Definition _GetYear (host : Host) (stat : option VFSStat)
           (timezone : datetime.tzinfo) : M Z :=
  let time := getattr stat crtime 0 in
  let time := if negb (Py.truthy time) then getattr stat ctime 0 else time in
  if negb (Py.truthy time) then
    effect (logging ERROR
              ("Unable to determine correct year of log file, defaulting to "
               ++ "current year.")) ;;;
    timelib_GetCurrentYear host
  else
    match datetime.fromtimestamp time timezone with
    | datetime.raises_ValueError =>
        effect (logging ERROR
                  ("Unable to determine correct year of log file with error"
                   ++ ", defaulting to current year.")) ;;;
        timelib_GetCurrentYear host
    | datetime.raises_OverflowError => raise OverflowError
    | datetime.converted year => ret year
    end.

Definition _ParseLogLine (host : Host) (structure : ParseResults.t)
           (key : string) : M unit :=
  year_use <- get _year_use ;;
  when (negb (Py.truthy year_use))
    (effect read_year ;;;
     set_year_use (year (parser_mediator host))) ;;;
  year_use <- get _year_use ;;
  when (negb (Py.truthy year_use))
    (effect call_GetStat ;;;
     year <- _GetYear host (GetStat host)
               (timezone (parser_mediator host)) ;;
     set_year_use year ;;;
     year_use <- get _year_use ;;
     when (negb (Py.truthy year_use))
       (year <- timelib_GetCurrentYear host ;; set_year_use year)) ;;;
  let month :=
    timelib.get timelib.MONTH_DICT (Py.lower (ParseResults.month structure))
  in
  last_month <- get _last_month ;;
  when (negb (Py.truthy_opt last_month)) (set_last_month month) ;;;
  last_month <- get _last_month ;;
  when (Py.lt month last_month)
    (year_use <- get _year_use ;; set_year_use (year_use + 1)) ;;;
  year_use <- get _year_use ;;
  timestamp <- _GetTimestamp (ParseResults.day structure) month year_use
                 (ParseResults.time structure) ;;
  if negb (Py.truthy timestamp) then
    effect (logging DEBUG "Invalid timestamp ")
  else
    set_last_month month ;;;
    structure <-
      (if String.eqb key "logline" then
         set_previous_structure (Some structure) ;;; ret (Some structure)
       else get previous_structure) ;;
    raw <- attribute structure ParseResults.action ;;
    action <-
      match Utf8.str_decode Utf8.strict raw with
      | Some action => ret action
      | None =>
          effect (logging WARNING
                    "Decode UTF8 failed, the message string may be cut short.") ;;;
          match Utf8.str_decode Utf8.ignore raw with
          | Some action => ret action
          | None => raise UnicodeDecodeError
          end
      end ;;
    process_name <- attribute structure ParseResults.process_name ;;
    match structure with
    | None => raise AttributeError
    | Some structure =>
        effect (ProduceEvent
                  (MacAppFirewallLogEvent.__init__ timestamp structure
                     (Py.strip process_name) action))
    end.

(** The conversion that [_GetYear] makes of the time it reads from [stat]
    raises [OverflowError]. *)
Definition conversion_overflows (stat : option VFSStat)
           (timezone : datetime.tzinfo) : bool :=
  Py.truthy (Derived.stat_time stat)
  && match datetime.fromtimestamp (Derived.stat_time stat) timezone with
     | datetime.raises_OverflowError => true
     | _ => false
     end.

(** [_ParseLogLine], started from [self], reaches line 145 and the
    conversion there raises [OverflowError]. *)
Definition raises (host : Host) (self : t) : bool :=
  negb (Py.truthy (_year_use self))
  && negb (Py.truthy (year (parser_mediator host)))
  && conversion_overflows (GetStat host) (timezone (parser_mediator host)).

End Overflow.

(** ** The year resolver, as the specification words it

    First success wins: the year hint supplied from outside, if it is not
    zero; the creation time of the file, falling back to a second time of
    the file, taken to a calendar year in the supplied time zone; the
    current year of the system clock.  The second time is the time of the
    last change of the inode, [ctime], in [metadata_year], and the time of
    the last modification, [mtime], in [metadata_year_by_modification]. *)

Module YearResolver.

Import MacAppFirewallParser.

Definition year_hint (host : Host) : Z := year (parser_mediator host).

(** A time that is missing or zero is of no use. *)
Definition usable (time : option Z) : option Z :=
  match time with
  | Some t => if t =? 0 then None else Some t
  | None => None
  end.

Definition file_creation_time (host : Host) : option Z :=
  match GetStat host with
  | Some stat => usable (crtime stat)
  | None => None
  end.

(** The time of the last change of the inode, [ctime]. *)
Definition file_change_time (host : Host) : option Z :=
  match GetStat host with
  | Some stat => usable (ctime stat)
  | None => None
  end.

Definition metadata_year (host : Host) : option Z :=
  match
    match file_creation_time host with
    | Some t => Some t
    | None => file_change_time host
    end
  with
  | Some t => datetime.fromtimestamp_year t (timezone (parser_mediator host))
  | None => None
  end.

Definition resolve (host : Host) : Z :=
  if negb (year_hint host =? 0) then year_hint host
  else
    match metadata_year host with
    | Some y => y
    | None => GetCurrentYear host
    end.

(** The sources that are asked, in order, until one succeeds. *)
Definition consulted (host : Host) : list Effect :=
  read_year
  :: (if negb (year_hint host =? 0) then []
      else
        call_GetStat
        :: match metadata_year host with
           | Some _ => []
           | None => [call_GetCurrentYear]
           end).

(** The times that a file system keeps for a file.  The stat object of
    the file entry shows them as [crtime], [ctime] and [mtime]; of these
    [_GetYear] reads [crtime] and [ctime]. *)
Record FileTimes := {
  created : option Z;
  changed : option Z;
  modified : option Z
}.

Definition stat_of (file : FileTimes) : VFSStat :=
  {| crtime := created file; ctime := changed file |}.

(** The year of the file with the fallback on the time of its last
    modification. *)
Definition metadata_year_by_modification (file : FileTimes)
           (timezone : datetime.tzinfo) : option Z :=
  match
    match usable (created file) with
    | Some t => Some t
    | None => usable (modified file)
    end
  with
  | Some t => datetime.fromtimestamp_year t timezone
  | None => None
  end.

End YearResolver.

(** ** Observations on a run *)

Module Run.

Import MacAppFirewallParser.

(** The effects that ask a source of the year. *)
Definition is_call (e : Effect) : bool :=
  match e with
  | read_year | call_GetStat | call_GetCurrentYear => true
  | _ => false
  end.

Definition calls (l : list Effect) : list Effect := filter is_call l.



End Run.

(** ** Lines and hosts used in the examples *)

Module Scenario.

Import MacAppFirewallParser.

Definition host_with_hint (hint : Z) : Host :=
  {| parser_mediator := {| year := hint; timezone := datetime.UTC |};
     GetStat := None;
     GetCurrentYear := 2026 |}.

Definition host2013 : Host := host_with_hint 2013.

(** A host without a year hint, whose file was created on 2013-11-02. *)
Definition host_with_crtime : Host :=
  {| parser_mediator := {| year := 0; timezone := datetime.UTC |};
     GetStat := Some {| crtime := Some 1383365255; ctime := None |};
     GetCurrentYear := 2026 |}.

Definition logline (month : string) (day : Z) (time : Z * Z * Z)
           (process_name action : string) : ParseResults.t :=
  {| ParseResults.month := month;
     ParseResults.day := day;
     ParseResults.time := time;
     ParseResults.computer_name := "Host-1.local";
     ParseResults.agent := "socketfilterfw[112]";
     ParseResults.status := "Info";
     ParseResults.process_name := process_name;
     ParseResults.action := action |}.

Definition repeated (month : string) (day : Z) (time : Z * Z * Z)
           (process_name : string) : ParseResults.t :=
  {| ParseResults.month := month;
     ParseResults.day := day;
     ParseResults.time := time;
     ParseResults.computer_name := "";
     ParseResults.agent := "";
     ParseResults.status := "";
     ParseResults.process_name := process_name;
     ParseResults.action := "" |}.

(** [Nov  2 04:07:35 Host-1.local socketfilterfw[112] <Info>: Dropbox:
    Allow (in:0 out:2)] *)
Definition dropbox : ParseResults.t :=
  logline "Nov" 2 (4, 7, 35) " Dropbox" "Allow (in:0 out:2)".

(** [Nov 29 22:18:29 --- last message repeated 1 time ---] *)
Definition last_message_repeated : ParseResults.t :=
  repeated "Nov" 29 (22, 18, 29) " last message repeated 1 time ".



Definition dec31 : ParseResults.t :=
  logline "Dec" 31 (23, 59, 59) " Dropbox" "Allow (in:0 out:2)".

(** A day that no month has, in January. *)
Definition jan32 : ParseResults.t :=
  logline "Jan" 32 (0, 0, 1) " Skype" "Deny (in:1 out:0)".

Definition jan2 : ParseResults.t :=
  logline "Jan" 2 (8, 30, 0) " Skype" "Allow (in:0 out:1)".




(** Zones one hour east and one hour west of UTC. *)
Definition one_hour_east : datetime.tzinfo :=
  {| datetime.utcoffset := fun _ => 3600 |}.

Definition one_hour_west : datetime.tzinfo :=
  {| datetime.utcoffset := fun _ => -3600 |}.

(** A file that has its modification time only, 2013-11-02, as the
    member of an archive has, and the host that reads it without a year
    hint. *)
Definition modified_only : YearResolver.FileTimes :=
  {| YearResolver.created := None;
     YearResolver.changed := None;
     YearResolver.modified := Some 1383365255 |}.

Definition host_with_mtime : Host :=
  {| parser_mediator := {| year := 0; timezone := datetime.UTC |};
     GetStat := Some (YearResolver.stat_of modified_only);
     GetCurrentYear := 2026 |}.

(** A host without a year hint, one hour east of UTC, whose file was
    created in the last second of the year 9999, UTC. *)
Definition host_at_end_of_9999 : Host :=
  {| parser_mediator := {| year := 0; timezone := one_hour_east |};
     GetStat := Some {| crtime := Some 253402300799; ctime := None |};
     GetCurrentYear := 2026 |}.

(** A host without a year hint, one hour west of UTC, whose file was
    created in the first second of the year 10000, UTC. *)
Definition host_past_9999 : Host :=
  {| parser_mediator := {| year := 0; timezone := one_hour_west |};
     GetStat := Some {| crtime := Some 253402300800; ctime := None |};
     GetCurrentYear := 2026 |}.



(** The record that opens a log, dated Feb 29, and the repeated marker
    of the day after. *)
Definition feb29_creating : ParseResults.t :=
  {| ParseResults.month := "Feb";
     ParseResults.day := 29;
     ParseResults.time := (23, 59, 59);
     ParseResults.computer_name := "Host-1.local";
     ParseResults.agent := "socketfilterfw[112]";
     ParseResults.status := "Error";
     ParseResults.process_name := " Logging";
     ParseResults.action := "creating /var/log/appfirewall.log" |}.

Definition mar1_repeated : ParseResults.t :=
  repeated "Mar" 1 (0, 0, 1) " last message repeated 1 time ".

Definition feb29_creating_line : string :=
  "Feb 29 23:59:59 Host-1.local socketfilterfw[112] <Error>: Logging: "
  ++ "creating /var/log/appfirewall.log".

Definition mar1_repeated_line : string :=
  "Mar  1 00:00:01 --- last message repeated 1 time ---".

Definition dropbox_line : string :=
  "Nov  2 04:07:35 Host-1.local socketfilterfw[112] <Info>: Dropbox: "
  ++ "Allow (in:0 out:2)".

Definition last_message_repeated_line : string :=
  "Nov 29 22:18:29 --- last message repeated 1 time ---".

Definition dec31_line : string :=
  "Dec 31 23:59:59 Host-1.local socketfilterfw[112] <Info>: Dropbox: "
  ++ "Allow (in:0 out:2)".

Definition jan32_line : string :=
  "Jan 32 00:00:01 Host-1.local socketfilterfw[112] <Info>: Skype: "
  ++ "Deny (in:1 out:0)".

Definition jan2_line : string :=
  "Jan  2 08:30:00 Host-1.local socketfilterfw[112] <Info>: Skype: "
  ++ "Allow (in:0 out:1)".


End Scenario.

(** ** [plaso/lib/utils.py] *)

Module utils.

Definition RESERVED_VARIABLES : list string :=
  ["username"; "inode"; "hostname"; "body"; "parser"; "regvalue";
   "timestamp"; "timestamp_desc"; "source_short"; "source_long";
   "timezone"; "filename"; "display_name"; "pathspec"; "offset";
   "store_number"; "store_index"; "tag"; "data_type"].

(** The values that reach [GetUnicodeString]: text, byte strings, and
    the integers and [None] that event attributes also hold. *)
Inductive object :=
| Unicode (text : Py.unicode)
| Str (s : string)
| Int (n : Z)
| NoneType.

(** [str(o)] of a value that is not text. *)
Definition str (o : object) : string :=
  match o with
  | Str s => s
  | Int n => DecimalString.NilEmpty.string_of_int (Z.to_int n)
  | NoneType => "None"
  | Unicode _ => EmptyString
  end.

(** [None] stands for an exception that leaves the function. *)
Definition GetUnicodeString (string : object) : option Py.unicode :=
  match string with
  | Unicode text => Some text
  | _ => Utf8.str_decode Utf8.ignore (str string)
  end.

End utils.

(** ** Observations on texts and on sequences of records *)

Module Text.

Fixpoint all_chars (p : ascii -> bool) (s : string) : bool :=
  match s with
  | EmptyString => true
  | String c s' => p c && all_chars p s'
  end.

Definition first_char (s : string) : option ascii :=
  match s with
  | EmptyString => None
  | String c _ => Some c
  end.

Fixpoint last_char (s : string) : option ascii :=
  match s with
  | EmptyString => None
  | String c EmptyString => Some c
  | String _ s' => last_char s'
  end.

Definition is_ascii (c : ascii) : bool := Py.byte_of c <? 128.

(** The character, if there is one, is no whitespace. *)
Definition no_space (c : option ascii) : Prop :=
  match c with
  | Some c => Py.is_space c = false
  | None => True
  end.

(** A month token: a capital and two small letters. *)
Definition month_token (s : string) : bool :=
  match s with
  | String a (String b (String c EmptyString)) =>
      Py.is_upper a && Py.is_lower b && Py.is_lower c
  | _ => false
  end.

(** A text that is not empty and whose characters all satisfy [p]. *)
Definition word (p : ascii -> bool) (s : string) : bool :=
  negb (String.eqb s EmptyString) && all_chars p s.

Definition lacks (chars : string) (c : ascii) : bool :=
  negb (pyparsing.mem c chars).

Definition two_digit (v : Z) : bool := (0 <=? v) && (v <=? 99).

(** The month, day and time that both line structures start with. *)
Definition date_fields (r : ParseResults.t) : bool :=
  month_token (ParseResults.month r)
  && two_digit (ParseResults.day r)
  && (let '(hour, minute, second) := ParseResults.time r in
      two_digit hour && two_digit minute && two_digit second).

End Text.

Module Session.

Import MacAppFirewallParser.

(** The test of [ParseRecord]: the key is one of the two it knows. *)
Definition known (record : string * ParseResults.t) : bool :=
  String.eqb (fst record) "logline" || String.eqb (fst record) "repeated".

(** The event that a record yields when it is acted on at the time
    [timestamp]. *)
Definition event_of (timestamp : Z) (prev : ParseResults.t)
           (action : Py.unicode) : MacAppFirewallLogEvent.t :=
  MacAppFirewallLogEvent.__init__ timestamp prev
    (Py.strip (ParseResults.process_name prev)) action.


(** What holds of the attributes in every state of a session: the month
    kept is a month number, a cached record is a full record of
    [records], and with a cached record come a year and a month. *)
Definition invariant (records : list (string * ParseResults.t))
           (self : t) : Prop :=
  (forall month, _last_month self = Some month -> 1 <= month <= 12)
  /\ (forall prev,
         previous_structure self = Some prev ->
         In ("logline", prev) records
         /\ 1 <= _year_use self
         /\ _last_month self <> None).

End Session.

(** * Properties *)

Import MacAppFirewallParser Derived.

(** ** How the methods run *)

Lemma events_app (l1 l2 : list Effect) :
  events (l1 ++ l2)%list = (events l1 ++ events l2)%list.
Proof.
  induction l1 as [|e l1 IH]; simpl; [reflexivity|].
  destruct e; simpl; rewrite ?IH; reflexivity.
Qed.

Lemma GetYear_run (host : Host) (self : t) :
  _GetYear host (GetStat host) (timezone (parser_mediator host)) self
  = (Returned (GetYear_value host), self, GetYear_effects host).
Proof.
  unfold _GetYear, GetYear_value, GetYear_effects, stat_time.
  destruct (Py.truthy (getattr (GetStat host) crtime 0)) eqn:Hcr; simpl.
  - rewrite Hcr.
    destruct (datetime.fromtimestamp_year _ _); reflexivity.
  - destruct (Py.truthy (getattr (GetStat host) ctime 0)) eqn:Hc; simpl.
    + destruct (datetime.fromtimestamp_year _ _); reflexivity.
    + reflexivity.
Qed.

Lemma resolution_run (host : Host) (k : M unit) (self : t) :
  bind (get _year_use) (fun year_use =>
    bind (when (negb (Py.truthy year_use))
            (bind (effect read_year) (fun _ =>
               set_year_use (year (parser_mediator host)))))
      (fun _ =>
         bind (get _year_use) (fun year_use =>
           bind (when (negb (Py.truthy year_use))
                   (bind (effect call_GetStat) (fun _ =>
                      bind (_GetYear host (GetStat host)
                              (timezone (parser_mediator host)))
                        (fun year =>
                           bind (set_year_use year) (fun _ =>
                             bind (get _year_use) (fun year_use =>
                               when (negb (Py.truthy year_use))
                                 (bind (timelib_GetCurrentYear host)
                                    (fun year => set_year_use year))))))))
             (fun _ => k)))) self
  = let '(o, s, e) :=
      k {| _year_use := year_after_resolution host self;
           _last_month := _last_month self;
           previous_structure := previous_structure self |} in
    (o, s, (resolution_effects host self ++ e)%list).
Proof.
  unfold year_after_resolution, resolution_effects.
  destruct self as [yu lm prev].
  cbv [bind get when effect set_year_use ret timelib_GetCurrentYear
       _year_use _last_month previous_structure].
  destruct (Py.truthy yu) eqn:Hyu; cbn [negb app].
  - rewrite Hyu; cbn [negb app].
    destruct (k _) as [[o s] e]; reflexivity.
  - destruct (Py.truthy (year (parser_mediator host))) eqn:Hh; cbn [negb app].
    + destruct (k _) as [[o s] e]; reflexivity.
    + rewrite GetYear_run.
      destruct (Py.truthy (GetYear_value host)) eqn:Hg; cbn [negb app];
        destruct (k _) as [[o s] e]; rewrite ?app_nil_r; reflexivity.
Qed.

Lemma rollover_run (month : option Z) (k : M unit) (self : t) :
  bind (get _last_month) (fun last_month =>
    bind (when (negb (Py.truthy_opt last_month)) (set_last_month month))
      (fun _ =>
         bind (get _last_month) (fun last_month =>
           bind (when (Py.lt month last_month)
                   (bind (get _year_use) (fun year_use =>
                      set_year_use (year_use + 1))))
             (fun _ => k)))) self
  = k {| _year_use :=
           _year_use self
           + (if rollover (_last_month self) month then 1 else 0);
         _last_month := last_month_checked (_last_month self) month;
         previous_structure := previous_structure self |}.
Proof.
  unfold rollover, last_month_checked.
  destruct self as [yu lm prev].
  cbv [bind get when set_last_month set_year_use ret
       _year_use _last_month previous_structure].
  destruct (Py.truthy_opt lm) eqn:Hlm; cbn [negb app].
  - destruct (Py.lt month lm); cbn [app]; rewrite ?Z.add_0_r;
      destruct (k _) as [[o s] e]; reflexivity.
  - destruct (Py.lt month month); cbn [app]; rewrite ?Z.add_0_r;
      destruct (k _) as [[o s] e]; reflexivity.
Qed.

Lemma ParseLogLine_run (host : Host) (structure : ParseResults.t)
      (key : string) (self : t) :
  _ParseLogLine host structure key self
  = let self1 := self_at_composition host self structure in
    let eff := resolution_effects host self in
    match month_of structure with
    | None => (Raised TypeError, self1, eff)
    | Some month =>
        let timestamp :=
          match composed host self structure month with
          | Some timestamp => timestamp
          | None => 0
          end in
        if negb (Py.truthy timestamp) then
          (Returned tt, self1, (eff ++ [logging DEBUG "Invalid timestamp "])%list)
        else
          let acting :=
            if String.eqb key "logline" then Some structure
            else previous_structure self in
          let self2 :=
            {| _year_use := year_in_use host self structure;
               _last_month := Some month;
               previous_structure := acting |} in
          match acting with
          | None => (Raised AttributeError, self2, eff)
          | Some prev =>
              match decoded_action (ParseResults.action prev) with
              | None =>
                  (Raised UnicodeDecodeError, self2,
                   (eff ++ decode_effects (ParseResults.action prev))%list)
              | Some action =>
                  (Returned tt, self2,
                   (eff ++ decode_effects (ParseResults.action prev)
                    ++ [ProduceEvent
                          (MacAppFirewallLogEvent.__init__ timestamp prev
                             (Py.strip (ParseResults.process_name prev))
                             action)])%list)
              end
          end
    end.
Proof.
  unfold _ParseLogLine.
  fold (month_of structure).
  rewrite resolution_run.
  rewrite rollover_run.
  unfold self_at_composition, composed, year_in_use.
  cbn [_year_use _last_month previous_structure].
  set (yr := year_after_resolution host self
             + (if rollover _ (month_of structure) then 1 else 0)).
  set (lm := last_month_checked _ _).
  set (eff := resolution_effects host self).
  unfold _GetTimestamp.
  destruct (ParseResults.time structure) as [[hour minute] second].
  destruct (month_of structure) as [month|].
  - cbv [bind get _year_use].
    destruct (timelib.FromTimeParts yr month _ hour minute second)
      as [timestamp|]; cbv [ret].
    + destruct (Py.truthy timestamp) eqn:Hts; cbn [negb app]; [|reflexivity].
      unfold decoded_action, decode_effects.
      remember (previous_structure self) as previous eqn:Hprevious.
      cbv [set_last_month set_previous_structure attribute effect raise ret
           _year_use _last_month previous_structure].
      destruct (String.eqb key "logline");
        [|destruct previous as [prev|]];
        cbn [app];
        repeat match goal with
               | |- context [match Utf8.str_decode ?e ?raw with _ => _ end] =>
                   destruct (Utf8.str_decode e raw)
               end;
        cbv [ret raise]; cbn [app]; rewrite ?app_nil_r; reflexivity.
    + cbn. reflexivity.
  - cbv [bind get raise]. cbn [app]. rewrite app_nil_r. reflexivity.
Qed.

(** ** The codec *)

Lemma decode_ignore_bounded (n : nat) :
  forall s, (List.length s <= n)%nat ->
            exists text, Utf8.decode Utf8.ignore s = Some text.
Proof.
  induction n as [|n IH]; intros s Hlen.
  - destruct s; [eexists; reflexivity | simpl in Hlen; lia].
  - destruct s as [|b0 s1]; [eexists; reflexivity|].
    cbn [Utf8.decode].
    repeat match goal with
           | |- context [match ?l with [] => _ | _ :: _ => _ end] =>
               is_var l; destruct l; cbv beta iota
           | |- context [if ?c then _ else _] => destruct c
           end;
      unfold Utf8.on_error, Utf8.on_char;
      try (eexists; reflexivity);
      match goal with
      | |- context [Utf8.decode Utf8.ignore ?tail] =>
          destruct (IH tail) as [text Htext];
          [simpl in Hlen |- *; lia
          |rewrite Htext; eexists; reflexivity]
      end.
Qed.

Lemma decode_ignore_total (raw : string) :
  exists text, Utf8.str_decode Utf8.ignore raw = Some text.
Proof.
  apply (decode_ignore_bounded (n := List.length (Py.bytes raw))).
  apply Nat.le_refl.
Qed.

Lemma on_char_app (ch : Z) (text : Py.unicode) (tail : option Py.unicode) :
  Utf8.on_char ch (option_map (app text) tail)
  = option_map (app (ch :: text)) tail.
Proof. destruct tail; reflexivity. Qed.

Lemma decode_app_bounded (e : Utf8.errors) (q : list Z) (n : nat) :
  forall p text,
    (List.length p <= n)%nat ->
    Utf8.decode Utf8.strict p = Some text ->
    Utf8.decode e (p ++ q)%list
    = option_map (app text) (Utf8.decode e q).
Proof.
  induction n as [|n IH]; intros p text Hlen Hp.
  - destruct p; [|simpl in Hlen; lia].
    injection Hp as <-. cbn [app]. destruct (Utf8.decode e q); reflexivity.
  - destruct p as [|b0 s1].
    { injection Hp as <-. cbn [app]. destruct (Utf8.decode e q); reflexivity. }
    cbn [Utf8.decode] in Hp.
    cbn [app]. remember (s1 ++ q)%list as rest eqn:Hrest.
    cbn [Utf8.decode].
    repeat match type of Hp with
           | context [match ?l with [] => _ | _ :: _ => _ end] =>
               is_var l; destruct l; cbv beta iota in Hp
           | context [if ?c then _ else _] =>
               let E := fresh "E" in destruct c eqn:E
           end;
      try discriminate Hp;
      match type of Hp with
      | Utf8.on_char _ (Utf8.decode Utf8.strict ?tail) = Some _ =>
          destruct (Utf8.decode Utf8.strict tail) as [text'|] eqn:Htail;
          [|discriminate Hp];
          injection Hp as <-;
          rewrite <- on_char_app;
          assert (Hind := IH tail text');
          subst rest; cbn [app] in Hind |- *; cbv beta iota;
          repeat match goal with
                 | E : ?c = _ |- context [if ?c then _ else _] => rewrite E
                 end;
          f_equal; apply Hind;
          [simpl in Hlen |- *; lia | exact Htail]
      end.
Qed.

(** Bytes that decode strictly are decoded to the same text in front of
    any other bytes, under every error handler. *)
Lemma decode_after_valid (e : Utf8.errors) (p q : list Z)
      (text : Py.unicode) :
  Utf8.decode Utf8.strict p = Some text ->
  Utf8.decode e (p ++ q)%list = option_map (app text) (Utf8.decode e q).
Proof.
  intros Hp.
  apply (decode_app_bounded e q (n := List.length p)); [apply Nat.le_refl|].
  exact Hp.
Qed.

(** On valid UTF-8 the error handler makes no difference. *)
Lemma decode_valid_any_handler (e : Utf8.errors) (s : list Z)
      (text : Py.unicode) :
  Utf8.decode Utf8.strict s = Some text -> Utf8.decode e s = Some text.
Proof.
  intros Hs.
  pose proof (decode_after_valid e s [] Hs) as H.
  rewrite app_nil_r in H. rewrite H. cbn. rewrite app_nil_r. reflexivity.
Qed.

(** A byte that cannot start a sequence, between two valid texts: strict
    decoding fails, [ignore] drops the byte, [replace] puts U+FFFD in its
    place. *)
Lemma invalid_start_byte (p q : list Z) (b : Z) (before behind : Py.unicode) :
  Utf8.utf8_code_length b = 0 ->
  Utf8.decode Utf8.strict p = Some before ->
  Utf8.decode Utf8.strict q = Some behind ->
  Utf8.decode Utf8.strict (p ++ b :: q)%list = None
  /\ Utf8.decode Utf8.ignore (p ++ b :: q)%list
     = Some (before ++ behind)%list
  /\ Utf8.decode Utf8.replace (p ++ b :: q)%list
     = Some (before ++ Utf8.REPLACEMENT_CHARACTER :: behind)%list.
Proof.
  intros Hb Hp Hq.
  rewrite !(decode_after_valid _ p (b :: q) Hp).
  cbn [Utf8.decode]. rewrite Hb. cbn [Z.eqb Utf8.on_error].
  rewrite (decode_valid_any_handler Utf8.ignore q Hq),
    (decode_valid_any_handler Utf8.replace q Hq).
  repeat split.
Qed.

Lemma decoded_action_total (raw : string) :
  exists text, decoded_action raw = Some text.
Proof.
  unfold decoded_action.
  destruct (Utf8.str_decode Utf8.strict raw) as [text|].
  - exists text; reflexivity.
  - apply decode_ignore_total.
Qed.

(** ** One line *)

Lemma events_GetYear_effects (host : Host) : events (GetYear_effects host) = [].
Proof.
  unfold GetYear_effects.
  destruct (Py.truthy _); [destruct (datetime.fromtimestamp_year _ _)|];
    reflexivity.
Qed.

Lemma events_resolution_effects (host : Host) (self : t) :
  events (resolution_effects host self) = [].
Proof.
  unfold resolution_effects.
  destruct (Py.truthy (_year_use self)); [reflexivity|].
  destruct (Py.truthy (year (parser_mediator host))); [reflexivity|].
  cbn [events]. rewrite events_app, events_GetYear_effects.
  destruct (Py.truthy (GetYear_value host)); reflexivity.
Qed.

Lemma events_decode_effects (raw : string) : events (decode_effects raw) = [].
Proof.
  unfold decode_effects. destruct (Utf8.str_decode Utf8.strict raw); reflexivity.
Qed.



Lemma events_produces (l1 l2 : list Effect) (e : MacAppFirewallLogEvent.t) :
  events l1 = [] -> events l2 = [] ->
  events (l1 ++ l2 ++ [ProduceEvent e])%list = [e].
Proof.
  intros H1 H2. rewrite !events_app, H1, H2. reflexivity.
Qed.

(** The events of a run that ends in [ProduceEvent]. *)
Ltac one_event :=
  apply events_produces;
  [apply events_resolution_effects | apply events_decode_effects].

Lemma accepted_inv (host : Host) (self : t) (structure : ParseResults.t) :
  accepted host self structure = true ->
  exists month timestamp,
    month_of structure = Some month
    /\ composed host self structure month = Some timestamp
    /\ Py.truthy timestamp = true.
Proof.
  unfold accepted.
  destruct (month_of structure) as [month|]; [|discriminate].
  destruct (composed host self structure month) as [timestamp|] eqn:Hcomposed;
    [|discriminate].
  intros H. exists month, timestamp. auto.
Qed.

(** ** The grammar on the lines of the scenarios *)

Example dropbox_line_tokenizes :
  first_match LINE_STRUCTURES Scenario.dropbox_line
  = Some ("logline", Scenario.dropbox).
Proof. vm_compute. reflexivity. Qed.

Example last_message_repeated_line_tokenizes :
  pyparsing.parseString FIREWALL_LINE Scenario.last_message_repeated_line
  = None
  /\ first_match LINE_STRUCTURES Scenario.last_message_repeated_line
     = Some ("repeated", Scenario.last_message_repeated).
Proof. split; vm_compute; reflexivity. Qed.

Example dec31_jan32_jan2_lines_tokenize :
  map (first_match LINE_STRUCTURES)
      [Scenario.dec31_line; Scenario.jan32_line; Scenario.jan2_line]
  = [Some ("logline", Scenario.dec31); Some ("logline", Scenario.jan32);
     Some ("logline", Scenario.jan2)].
Proof. vm_compute. reflexivity. Qed.

Example feb29_mar1_lines_tokenize :
  map (first_match LINE_STRUCTURES)
      [Scenario.feb29_creating_line; Scenario.mar1_repeated_line]
  = [Some ("logline", Scenario.feb29_creating);
     Some ("repeated", Scenario.mar1_repeated)]
  /\ outcome (VerifyStructure Scenario.feb29_creating_line __init__)
     = Returned true.
Proof. split; vm_compute; reflexivity. Qed.

(** The event of the line [dropbox_line] under the hint 2013: the
    timestamp of 2013-11-02 04:07:35, the process name without its
    leading blank. *)
Example dropbox_line_event :
  events (effects (ParseLines Scenario.host2013 [Scenario.dropbox_line]
                     __init__))
  = [{| MacAppFirewallLogEvent.timestamp := 1383365255000000;
        MacAppFirewallLogEvent.timestamp_desc :=
          MacAppFirewallLogEvent.ADDED_TIME;
        MacAppFirewallLogEvent.action := Py.u "Allow (in:0 out:2)";
        MacAppFirewallLogEvent.agent := "socketfilterfw[112]";
        MacAppFirewallLogEvent.computer_name := "Host-1.local";
        MacAppFirewallLogEvent.process_name := "Dropbox";
        MacAppFirewallLogEvent.status := "Info" |}].
Proof. vm_compute. reflexivity. Qed.

(** A line without a process name in front of the action does not parse
    as a full record: [CharsNotIn(':')] takes the rest of the line and
    the colon behind it is missing. *)
Example line_without_process_name_is_rejected :
  pyparsing.parseString FIREWALL_LINE
    ("Oct 1 00:00:00 Host-1 socketfilterfw[1] <Error>: "
     ++ "creating /var/log/appfirewall.log")
  = None
  /\ outcome (VerifyStructure
                ("Oct 1 00:00:00 Host-1 socketfilterfw[1] <Error>: "
                 ++ "Logging: creating /var/log/appfirewall.log") __init__)
     = Returned true.
Proof. split; vm_compute; reflexivity. Qed.

(** ** C1 *)




(** ** C2 *)

(** A repeated-marker line that passes the timestamp check while no full
    record is cached makes [_ParseLogLine] raise [AttributeError]: line
    172 takes [None] for the structure and line 176 reads its [action]. *)
Lemma repeated_without_previous_raises (host : Host) (self : t)
      (structure : ParseResults.t) (key : string) :
  String.eqb key "logline" = false ->
  previous_structure self = None ->
  accepted host self structure = true ->
  let r := _ParseLogLine host structure key self in
  outcome r = Raised AttributeError /\ events (effects r) = [].
Proof.
  intros Hkey Hprev Hacc r. subst r.
  destruct (accepted_inv host self structure Hacc)
    as (month & timestamp & Hmonth & Hcomposed & Htruthy).
  rewrite ParseLogLine_run. cbv zeta.
  rewrite Hmonth, Hcomposed, Htruthy, Hkey, Hprev.
  cbn [negb outcome effects fst snd].
  split; [reflexivity | apply events_resolution_effects].
Qed.

(** C2, on the code: a log whose opening line is dated Feb 29 is read
    with the year 2013.  The opening record does not compose to a
    timestamp and is dropped, so no full record is cached; the
    repeated-marker record of Mar 1 that follows has a valid timestamp
    and makes [ParseRecord] raise [AttributeError].  The loop over the
    records ends there: the record behind it is never processed and the
    file yields no event. *)
Theorem C2_repeated_marker_without_previous_raises :
  let r1 := ParseRecord Scenario.host2013 "logline" Scenario.feb29_creating
              __init__ in
  let r2 := ParseRecord Scenario.host2013 "repeated" Scenario.mar1_repeated
              (self_after r1) in
  let run := ParseRecords Scenario.host2013
               [("logline", Scenario.feb29_creating);
                ("repeated", Scenario.mar1_repeated);
                ("logline", Scenario.dropbox)] __init__ in
  (outcome r1 = Returned tt /\ previous_structure (self_after r1) = None)
  /\ accepted Scenario.host2013 (self_after r1) Scenario.mar1_repeated = true
  /\ outcome r2 = Raised AttributeError
  /\ events (effects r2) = []
  /\ outcome run = Raised AttributeError
  /\ events (effects run) = [].
Proof.
  cbv zeta. repeat split; vm_compute; reflexivity.
Qed.

(** ** C3 *)




(** ** C10 *)



(** ** Sequences of records *)



Lemma ParseRecords_cons (host : Host) (key : string)
      (structure : ParseResults.t) (records : list (string * ParseResults.t))
      (self : t) :
  ParseRecords host ((key, structure) :: records) self
  = match ParseRecord host key structure self with
    | (Returned _, self', effects) =>
        let '(outcome, self'', effects') := ParseRecords host records self' in
        (outcome, self'', (effects ++ effects')%list)
    | (Raised e, self', effects) => (Raised e, self', effects)
    end.
Proof. reflexivity. Qed.

(** Lines that all match a structure are processed as their records
    are. *)
Lemma ParseLines_records (host : Host) (lines : list string)
      (records : list (string * ParseResults.t)) (self : t) :
  map (first_match LINE_STRUCTURES) lines = map Some records ->
  ParseLines host lines self = ParseRecords host records self.
Proof.
  revert records self.
  induction lines as [|line lines IH]; intros [|[key structure] records] self;
    cbn [map]; try discriminate; [reflexivity|].
  intros [= Hline Hlines].
  change (first_match LINE_STRUCTURES line = Some (key, structure)) in Hline.
  cbn [ParseLines ParseRecords]. unfold bind, ParseLine. rewrite Hline.
  destruct (ParseRecord host key structure self) as [[[u|e] self'] eff];
    [|reflexivity].
  rewrite (IH records self' Hlines). reflexivity.
Qed.

(** [previous_structure] changes on a full record that passes the
    timestamp check, and on no other record. *)
Lemma previous_structure_after (host : Host) (key : string)
      (structure : ParseResults.t) (self : t) :
  previous_structure (self_after (ParseRecord host key structure self))
  = if String.eqb key "logline" && accepted host self structure
    then Some structure
    else previous_structure self.
Proof.
  unfold ParseRecord, accepted.
  destruct (String.eqb key "logline" || String.eqb key "repeated") eqn:Hknown.
  - rewrite ParseLogLine_run. cbv zeta.
    destruct (month_of structure) as [month|];
      [|rewrite andb_false_r; reflexivity].
    destruct (composed host self structure month) as [timestamp|];
      [|rewrite andb_false_r; reflexivity].
    destruct (Py.truthy timestamp);
      [|rewrite andb_false_r; reflexivity].
    rewrite andb_true_r. cbn [negb].
    destruct (String.eqb key "logline").
    + destruct (decoded_action (ParseResults.action structure)); reflexivity.
    + destruct (previous_structure self) as [prev|]; [|reflexivity].
      destruct (decoded_action (ParseResults.action prev)); reflexivity.
  - apply orb_false_elim in Hknown. destruct Hknown as [-> _]. reflexivity.
Qed.


(** ** C4 *)




(** ** C9 *)




(** ** C5 *)

(** What lines 152-165 leave in [_year_use] and [_last_month]: the year
    is raised by one exactly when the month is below the month kept from
    before; the month of the line is kept if the line passes the
    timestamp check. *)
Lemma year_and_month_after (host : Host) (structure : ParseResults.t)
      (key : string) (self : t) :
  let r := _ParseLogLine host structure key self in
  _year_use (self_after r)
  = year_after_resolution host self
    + (if rollover (_last_month self) (month_of structure) then 1 else 0)
  /\ _last_month (self_after r)
     = if accepted host self structure then month_of structure
       else last_month_checked (_last_month self) (month_of structure).
Proof.
  cbv zeta. rewrite ParseLogLine_run. cbv zeta.
  unfold accepted, self_at_composition, year_in_use.
  destruct (month_of structure) as [month|]; [|split; reflexivity].
  destruct (composed host self structure month) as [timestamp|];
    [|split; reflexivity].
  destruct (Py.truthy timestamp); cbn [negb]; [|split; reflexivity].
  destruct (if String.eqb key "logline" then Some structure
            else previous_structure self) as [prev|]; [|split; reflexivity].
  destruct (decoded_action (ParseResults.action prev)); split; reflexivity.
Qed.

(** C5, on the code: with the hint 2013, the records of Dec 31, Jan 32
    and Jan 2 raise the year twice.  The record of Jan 32 raises it to
    2014 and is then dropped for its date, without [_last_month] being
    updated; so the record of Jan 2 is again below December and raises
    the year to 2015, and its event is dated 2015-01-02. *)
Theorem C5_rollover_is_counted_twice :
  let s1 := self_after (ParseRecord Scenario.host2013 "logline"
                          Scenario.dec31 __init__) in
  let s2 := self_after (ParseRecord Scenario.host2013 "logline"
                          Scenario.jan32 s1) in
  let r3 := ParseRecord Scenario.host2013 "logline" Scenario.jan2 s2 in
  (_year_use s1 = 2013 /\ _last_month s1 = Some 12)
  /\ (_year_use s2 = 2014 /\ _last_month s2 = Some 12)
  /\ (_year_use (self_after r3) = 2015 /\ _last_month (self_after r3) = Some 1)
  /\ map (fun e => Some (MacAppFirewallLogEvent.timestamp e))
         (events (effects r3))
     = [timelib.FromTimeParts 2015 1 2 8 30 0].
Proof.
  cbv zeta. repeat split; vm_compute; reflexivity.
Qed.

(** ** C6 *)

(** C6: [VerifyStructure] returns, leaves the parser as it is, and its
    answer is [True] exactly when the line parses as a full record whose
    action is [creating /var/log/appfirewall.log] and whose status is
    [Error]. *)
Theorem C6_VerifyStructure_accepts_iff (line : string) (self : t) :
  exists answer,
    outcome (VerifyStructure line self) = Returned answer
    /\ self_after (VerifyStructure line self) = self
    /\ (answer = true <->
        exists structure,
          pyparsing.parseString FIREWALL_LINE line = Some structure
          /\ ParseResults.action structure
             = "creating /var/log/appfirewall.log"
          /\ ParseResults.status structure = "Error").
Proof.
  unfold VerifyStructure.
  destruct (pyparsing.parseString FIREWALL_LINE line) as [structure|].
  - destruct (String.eqb_spec (ParseResults.action structure)
                "creating /var/log/appfirewall.log") as [Haction|Haction];
      destruct (String.eqb_spec (ParseResults.status structure) "Error")
        as [Hstatus|Hstatus]; cbn [negb orb];
      eexists; (split; [reflexivity|]); (split; [reflexivity|]);
      (split;
       [try discriminate; intros _; exists structure; auto
       |intros (s & Hs & Hac & Hst); injection Hs as <-;
        try contradiction; reflexivity]).
  - exists false. split; [reflexivity|]. split; [reflexivity|].
    split; [discriminate|]. intros (s & Hs & _). discriminate.
Qed.

(** ** C7 *)

Lemma lt_irrefl (month : option Z) : Py.lt month month = false.
Proof. destruct month; [apply Z.ltb_irrefl | reflexivity]. Qed.

Lemma fromtimestamp_converted_range (time : Z) (timezone : datetime.tzinfo)
      (y : Z) :
  datetime.fromtimestamp time timezone = datetime.converted y ->
  1 <= y <= 9999.
Proof.
  unfold datetime.fromtimestamp, datetime.year_in_range, datetime.MINYEAR,
    datetime.MAXYEAR.
  destruct (datetime.DOUBLE_OVERFLOW <=? Z.abs time); [discriminate|].
  destruct (_ && _); [|discriminate].
  destruct (1 <=? _) eqn:Hmin; cbn [andb]; [|discriminate].
  destruct (_ <=? 9999) eqn:Hmax; [|discriminate].
  intros [= <-]. apply Z.leb_le in Hmin, Hmax. lia.
Qed.

Lemma fromtimestamp_year_positive (time : Z) (timezone : datetime.tzinfo)
      (y : Z) :
  datetime.fromtimestamp_year time timezone = Some y -> 0 < y.
Proof.
  unfold datetime.fromtimestamp_year.
  destruct (datetime.fromtimestamp time timezone) eqn:H; try discriminate.
  intros [= <-]. pose proof (fromtimestamp_converted_range _ _ H). lia.
Qed.

Lemma truthy_positive (x : Z) : 0 < x -> Py.truthy x = true.
Proof.
  intros H. unfold Py.truthy. apply negb_true_iff, Z.eqb_neq. lia.
Qed.

Lemma truthy_nonzero (x : Z) : x <> 0 -> Py.truthy x = true.
Proof.
  intros H. unfold Py.truthy. apply negb_true_iff, Z.eqb_neq. exact H.
Qed.

(** The time that [_GetYear] reads is the usable creation time, or else
    the usable change time. *)
Lemma stat_time_usable (host : Host) :
  match
    match YearResolver.file_creation_time host with
    | Some t => Some t
    | None => YearResolver.file_change_time host
    end
  with
  | Some t => stat_time (GetStat host) = t /\ Py.truthy t = true
  | None => Py.truthy (stat_time (GetStat host)) = false
  end.
Proof.
  unfold YearResolver.file_creation_time, YearResolver.file_change_time,
    YearResolver.usable, stat_time, getattr, Py.truthy.
  destruct (GetStat host) as [[[cr|] [c|]]|]; cbn [crtime ctime];
    repeat match goal with
           | |- context [?x =? 0] => destruct (x =? 0) eqn:?
           end;
    cbn in *; try congruence; auto.
Qed.

Lemma GetYear_value_metadata (host : Host) :
  GetYear_value host
  = match YearResolver.metadata_year host with
    | Some y => y
    | None => GetCurrentYear host
    end.
Proof.
  unfold GetYear_value, YearResolver.metadata_year.
  pose proof (stat_time_usable host) as H.
  destruct (match YearResolver.file_creation_time host with
            | Some t => Some t
            | None => YearResolver.file_change_time host
            end) as [t|].
  - destruct H as [-> ->]. reflexivity.
  - rewrite H. reflexivity.
Qed.

Lemma calls_GetYear_effects (host : Host) :
  Run.calls (GetYear_effects host)
  = match YearResolver.metadata_year host with
    | Some _ => []
    | None => [call_GetCurrentYear]
    end.
Proof.
  unfold GetYear_effects, YearResolver.metadata_year.
  pose proof (stat_time_usable host) as H.
  destruct (match YearResolver.file_creation_time host with
            | Some t => Some t
            | None => YearResolver.file_change_time host
            end) as [t|].
  - destruct H as [-> ->].
    destruct (datetime.fromtimestamp_year _ _); reflexivity.
  - rewrite H. reflexivity.
Qed.

Lemma calls_app (l1 l2 : list Effect) :
  Run.calls (l1 ++ l2)%list = (Run.calls l1 ++ Run.calls l2)%list.
Proof. apply filter_app. Qed.

Lemma calls_decode_effects (raw : string) : Run.calls (decode_effects raw) = [].
Proof.
  unfold decode_effects. destruct (Utf8.str_decode Utf8.strict raw); reflexivity.
Qed.

(** Only lines 140-149 ask for a year. *)
Lemma calls_ParseLogLine (host : Host) (structure : ParseResults.t)
      (key : string) (self : t) :
  Run.calls (effects (_ParseLogLine host structure key self))
  = Run.calls (resolution_effects host self).
Proof.
  rewrite ParseLogLine_run. cbv zeta.
  destruct (month_of structure) as [month|]; [|reflexivity].
  destruct (Py.truthy _); cbn [negb effects snd].
  - destruct (if String.eqb key "logline" then Some structure
              else previous_structure self) as [prev|]; [|reflexivity].
    destruct (decoded_action (ParseResults.action prev));
      cbn [effects snd]; rewrite !calls_app, calls_decode_effects;
      cbn; rewrite ?app_nil_r; reflexivity.
  - rewrite calls_app. cbn. apply app_nil_r.
Qed.

Lemma calls_resolution_effects (host : Host) (self : t) :
  Run.calls (resolution_effects host self)
  = if Py.truthy (_year_use self) then []
    else if Py.truthy (year (parser_mediator host)) then [read_year]
    else
      (read_year :: call_GetStat
       :: Run.calls (GetYear_effects host)
       ++ (if Py.truthy (GetYear_value host) then []
           else [call_GetCurrentYear]))%list.
Proof.
  unfold resolution_effects.
  destruct (Py.truthy (_year_use self)); [reflexivity|].
  destruct (Py.truthy (year (parser_mediator host))); [reflexivity|].
  unfold Run.calls. cbn [filter Run.is_call]. rewrite filter_app.
  destruct (Py.truthy (GetYear_value host)); reflexivity.
Qed.

(** Resolution from an unresolved year follows the order of
    [YearResolver]. *)
Lemma resolution_unresolved (host : Host) (self : t) :
  _year_use self = 0 ->
  GetCurrentYear host <> 0 ->
  year_after_resolution host self = YearResolver.resolve host
  /\ YearResolver.resolve host <> 0
  /\ Run.calls (resolution_effects host self) = YearResolver.consulted host.
Proof.
  intros Hzero Hclock.
  rewrite calls_resolution_effects.
  unfold year_after_resolution, YearResolver.resolve,
    YearResolver.consulted, YearResolver.year_hint.
  rewrite Hzero. change (Py.truthy 0) with false. cbv iota.
  change (Py.truthy (year (parser_mediator host)))
    with (negb (year (parser_mediator host) =? 0)).
  destruct (year (parser_mediator host) =? 0) eqn:Hhint; cbn [negb].
  - rewrite GetYear_value_metadata, calls_GetYear_effects.
    destruct (YearResolver.metadata_year host) as [y|] eqn:Hy.
    + assert (Hpos : 0 < y).
      { unfold YearResolver.metadata_year in Hy.
        destruct (match YearResolver.file_creation_time host with
                  | Some t => Some t
                  | None => YearResolver.file_change_time host
                  end) as [t|]; [|discriminate].
        exact (fromtimestamp_year_positive _ _ Hy). }
      rewrite (truthy_positive Hpos). repeat split. lia.
    + rewrite (truthy_nonzero Hclock). repeat split. assumption.
  - apply Z.eqb_neq in Hhint. repeat split. assumption.
Qed.

(** *** The methods with and without the exit of [OverflowError] *)

Lemma GetYear_without_overflow (host : Host) (stat : option VFSStat)
      (timezone : datetime.tzinfo) :
  Overflow.conversion_overflows stat timezone = false ->
  Overflow._GetYear host stat timezone = _GetYear host stat timezone.
Proof.
  unfold Overflow.conversion_overflows, stat_time, Overflow._GetYear, _GetYear,
    datetime.fromtimestamp_year.
  destruct (Py.truthy (getattr stat crtime 0)) eqn:Hcr; cbn [negb].
  - rewrite Hcr. cbn [negb andb].
    destruct (datetime.fromtimestamp _ _); [reflexivity..|discriminate].
  - destruct (Py.truthy (getattr stat ctime 0)); cbn [negb andb];
      [|reflexivity].
    destruct (datetime.fromtimestamp _ _); [reflexivity..|discriminate].
Qed.

Lemma GetYear_overflow (host : Host) (stat : option VFSStat)
      (timezone : datetime.tzinfo) (self : t) :
  Overflow.conversion_overflows stat timezone = true ->
  Overflow._GetYear host stat timezone self = (Raised OverflowError, self, []).
Proof.
  unfold Overflow.conversion_overflows, stat_time, Overflow._GetYear.
  destruct (Py.truthy (getattr stat crtime 0)) eqn:Hcr; cbn [negb].
  - rewrite Hcr. cbn [negb andb].
    destruct (datetime.fromtimestamp _ _); [discriminate..|reflexivity].
  - destruct (Py.truthy (getattr stat ctime 0)); cbn [negb andb];
      [|discriminate].
    destruct (datetime.fromtimestamp _ _); [discriminate..|reflexivity].
Qed.

(** Where the conversion of line 225 is not reached, or does not raise
    [OverflowError], the two forms of [_ParseLogLine] are one. *)
Lemma ParseLogLine_without_overflow (host : Host)
      (structure : ParseResults.t) (key : string) (self : t) :
  Overflow.raises host self = false ->
  Overflow._ParseLogLine host structure key self
  = _ParseLogLine host structure key self.
Proof.
  unfold Overflow.raises. intros Hraises.
  destruct (Overflow.conversion_overflows (GetStat host)
              (timezone (parser_mediator host))) eqn:Hconv.
  - rewrite andb_true_r in Hraises.
    unfold Overflow._ParseLogLine, _ParseLogLine.
    cbv [bind get when effect set_year_use ret].
    destruct (Py.truthy (_year_use self)) eqn:Hyear; cbn [negb].
    + cbn [_year_use app]. rewrite Hyear. cbn [negb]. reflexivity.
    + cbn [negb andb] in Hraises. apply negb_false_iff in Hraises.
      cbn [_year_use app]. rewrite Hraises. cbn [negb]. reflexivity.
  - unfold Overflow._ParseLogLine, _ParseLogLine.
    rewrite (@GetYear_without_overflow host _ _ Hconv). reflexivity.
Qed.

(** Where it is reached and raises, [_ParseLogLine] ends there: the hint
    and the stat object were read, the clock was not asked, no event was
    produced and the year is still not set. *)
Lemma ParseLogLine_overflow (host : Host) (structure : ParseResults.t)
      (key : string) (self : t) :
  Overflow.raises host self = true ->
  Overflow._ParseLogLine host structure key self
  = (Raised OverflowError,
     {| _year_use := 0;
        _last_month := _last_month self;
        previous_structure := previous_structure self |},
     [read_year; call_GetStat]).
Proof.
  unfold Overflow.raises. intros Hraises.
  apply andb_true_iff in Hraises. destruct Hraises as [Hraises Hconv].
  apply andb_true_iff in Hraises. destruct Hraises as [Hyear Hhint].
  apply negb_true_iff in Hyear, Hhint.
  assert (Hzero : year (parser_mediator host) = 0).
  { unfold Py.truthy in Hhint. apply negb_false_iff, Z.eqb_eq in Hhint.
    exact Hhint. }
  unfold Overflow._ParseLogLine.
  cbv [bind get when effect set_year_use ret].
  rewrite Hyear. cbn [negb _year_use]. rewrite Hhint. cbn [negb].
  rewrite (@GetYear_overflow host _ _ _ Hconv). rewrite Hzero. reflexivity.
Qed.

(** With no year hint, in a zone one hour east of UTC and for a file
    created in the last second of the year 9999, UTC, the conversion of
    the creation time raises [OverflowError]; the handler of line 227
    catches [ValueError] only, so the error leaves [_GetYear] and
    [_ParseLogLine]: the clock, whose year is at hand, is never asked, no
    year is set and no event is produced.  One second later and one hour
    west of UTC the conversion raises [ValueError], and the clock is
    asked. *)
Lemma OverflowError_leaves_year_resolution :
  let host := Scenario.host_at_end_of_9999 in
  let y := Overflow._GetYear host (GetStat host)
             (timezone (parser_mediator host)) __init__ in
  let r := Overflow._ParseLogLine host Scenario.dropbox "logline" __init__ in
  YearResolver.year_hint host = 0
  /\ datetime.fromtimestamp 253402300799 Scenario.one_hour_east
     = datetime.raises_OverflowError
  /\ outcome y = Raised OverflowError
  /\ outcome r = Raised OverflowError
  /\ _year_use (self_after r) = 0
  /\ effects r = [read_year; call_GetStat]
  /\ GetCurrentYear host = 2026
  /\ (let host := Scenario.host_past_9999 in
      let r := Overflow._ParseLogLine host Scenario.dropbox "logline"
                 __init__ in
      datetime.fromtimestamp 253402300800 Scenario.one_hour_west
      = datetime.raises_ValueError
      /\ _year_use (self_after r) = 2026
      /\ Run.calls (effects r)
         = [read_year; call_GetStat; call_GetCurrentYear]).
Proof. vm_compute. repeat split; reflexivity. Qed.

(** C7, as worded, fails twice.  The modification time of the file is
    never read: a file that has this time only, in 2013, and no year hint
    gets the year of the clock, 2026, after an error was logged.  And the
    resolution can end without a year: for the file created in the last
    second of 9999, read one hour east of UTC, [OverflowError] leaves
    [_ParseLogLine] with the year not set. *)
Lemma C7_counterexample :
  let r := Overflow._ParseLogLine Scenario.host_with_mtime Scenario.dropbox
             "logline" __init__ in
  let r' := Overflow._ParseLogLine Scenario.host_at_end_of_9999
              Scenario.dropbox "logline" __init__ in
  (YearResolver.year_hint Scenario.host_with_mtime = 0
   /\ YearResolver.metadata_year_by_modification Scenario.modified_only
        (timezone (parser_mediator Scenario.host_with_mtime))
      = Some 2013
   /\ outcome r = Returned tt
   /\ _year_use (self_after r) = 2026
   /\ Run.calls (effects r)
      = [read_year; call_GetStat; call_GetCurrentYear])
  /\ (outcome r' = Raised OverflowError
      /\ _year_use (self_after r') = 0
      /\ events (effects r') = []).
Proof. vm_compute. repeat split; reflexivity. Qed.

(** C7: unless [OverflowError] leaves the conversion of the file time,
    the year of the first line of a file is resolved by the first success
    among the year hint, if it is not zero, the creation time of the
    file, falling back to the [ctime] of its stat object, taken to a year
    in the time zone of the mediator, and the current year of the system
    clock; no source behind the first success is asked, and a year
    results. *)
Theorem C7_year_is_resolved_in_order (host : Host)
        (structure : ParseResults.t) (key : string) :
  Overflow.raises host __init__ = false ->
  GetCurrentYear host <> 0 ->
  let r := Overflow._ParseLogLine host structure key __init__ in
  _year_use (self_after r) = YearResolver.resolve host
  /\ YearResolver.resolve host <> 0
  /\ Run.calls (effects r) = YearResolver.consulted host.
Proof.
  intros Hraises Hclock r. subst r.
  rewrite (@ParseLogLine_without_overflow host structure key __init__ Hraises).
  destruct (year_and_month_after host structure key __init__) as [Hyear _].
  rewrite Hyear, calls_ParseLogLine. clear Hyear.
  unfold rollover, last_month_checked. cbn [_last_month Py.truthy_opt].
  rewrite lt_irrefl, Z.add_0_r.
  apply resolution_unresolved; [reflexivity | exact Hclock].
Qed.

Lemma C7_year_is_resolved_in_order_witness :
  let r := Overflow._ParseLogLine Scenario.host_with_crtime Scenario.dropbox
             "logline" __init__ in
  _year_use (self_after r) = YearResolver.resolve Scenario.host_with_crtime
  /\ YearResolver.resolve Scenario.host_with_crtime <> 0
  /\ Run.calls (effects r) = YearResolver.consulted Scenario.host_with_crtime.
Proof.
  apply (@C7_year_is_resolved_in_order Scenario.host_with_crtime
           Scenario.dropbox "logline").
  - reflexivity.
  - discriminate.
Defined.

(** ** C8 *)

Lemma resolution_resolved (host : Host) (self : t) :
  _year_use self <> 0 ->
  year_after_resolution host self = _year_use self
  /\ resolution_effects host self = [].
Proof.
  intros Hset. unfold year_after_resolution, resolution_effects.
  rewrite (truthy_nonzero Hset). split; reflexivity.
Qed.

Section Resolved.

Variable host : Host.

(** The year hint is a year or zero, the clock gives a year. *)
Hypothesis hint_not_negative : 0 <= year (parser_mediator host).
Hypothesis clock_positive : 0 < GetCurrentYear host.





End Resolved.


(** * Further properties of the parser *)

(** ** The events of one line *)

(** A call of [_ParseLogLine] emits nothing, or it returns after one
    event: that of the record acted on, at the timestamp of the line. *)
Lemma ParseLogLine_events (host : Host) (structure : ParseResults.t)
      (key : string) (self : t) :
  let r := _ParseLogLine host structure key self in
  events (effects r) = []
  \/ exists month timestamp prev action,
       month_of structure = Some month
       /\ composed host self structure month = Some timestamp
       /\ Py.truthy timestamp = true
       /\ (if String.eqb key "logline" then Some structure
           else previous_structure self) = Some prev
       /\ decoded_action (ParseResults.action prev) = Some action
       /\ r = (Returned tt,
               {| _year_use := year_in_use host self structure;
                  _last_month := Some month;
                  previous_structure := Some prev |},
               (resolution_effects host self
                ++ decode_effects (ParseResults.action prev)
                ++ [ProduceEvent (Session.event_of timestamp prev action)])%list)
       /\ events (effects r) = [Session.event_of timestamp prev action].
Proof.
  cbv zeta. rewrite ParseLogLine_run. cbv zeta.
  destruct (month_of structure) as [month|] eqn:Hmonth;
    [|left; apply events_resolution_effects].
  destruct (composed host self structure month) as [timestamp|] eqn:Hcomposed.
  - destruct (Py.truthy timestamp) eqn:Htruthy; cbn [negb].
    + destruct (if String.eqb key "logline" then Some structure
                else previous_structure self) as [prev|] eqn:Hacting;
        [|left; apply events_resolution_effects].
      destruct (decoded_action (ParseResults.action prev)) as [action|]
        eqn:Haction.
      * right. exists month, timestamp, prev, action.
        repeat split; try reflexivity; try assumption.
        cbn [effects snd]. one_event.
      * left. cbn [effects snd].
        rewrite events_app, events_resolution_effects, events_decode_effects.
        reflexivity.
    + left. cbn [effects snd].
      rewrite events_app, events_resolution_effects. reflexivity.
  - left. change (Py.truthy 0) with false. cbn [negb effects snd].
    rewrite events_app, events_resolution_effects. reflexivity.
Qed.

Lemma ParseRecord_unknown (host : Host) (key : string)
      (structure : ParseResults.t) (self : t) :
  Session.known (key, structure) = false ->
  ParseRecord host key structure self
  = (Returned tt, self,
     [logging WARNING ("Unable to parse record, unknown structure: " ++ key)]).
Proof.
  unfold Session.known, ParseRecord. cbn [fst]. intros ->. reflexivity.
Qed.

Lemma ParseRecord_known (host : Host) (key : string)
      (structure : ParseResults.t) (self : t) :
  Session.known (key, structure) = true ->
  ParseRecord host key structure self = _ParseLogLine host structure key self.
Proof.
  unfold Session.known, ParseRecord. cbn [fst]. intros ->. reflexivity.
Qed.

Lemma at_most_one_event (host : Host) (key : string)
      (structure : ParseResults.t) (self : t) :
  (List.length (events (effects (ParseRecord host key structure self)))
   <= if Session.known (key, structure) then 1 else 0)%nat.
Proof.
  destruct (Session.known (key, structure)) eqn:Hknown.
  - rewrite (ParseRecord_known host key structure self Hknown).
    destruct (ParseLogLine_events host structure key self)
      as [-> | (month & timestamp & prev & action & _ & _ & _ & _ & _ & _ & ->)];
      cbn; lia.
  - rewrite (ParseRecord_unknown host key structure self Hknown). cbn. lia.
Qed.

(** X1: from whatever attributes a run starts, it hands the mediator at
    most one event for each record under a known key, and none for a
    record under another key. *)
Theorem X1_at_most_one_event_per_known_record (host : Host)
        (records : list (string * ParseResults.t)) :
  forall self,
    (List.length (events (effects (ParseRecords host records self)))
     <= List.length (filter Session.known records))%nat.
Proof.
  induction records as [|[key structure] records IH]; intros self.
  - cbn. lia.
  - rewrite ParseRecords_cons.
    pose proof (at_most_one_event host key structure self) as Hone.
    cbn [filter].
    destruct (ParseRecord host key structure self) as [[[u|e] self'] eff];
      cbn [effects snd] in Hone.
    + specialize (IH self').
      destruct (ParseRecords host records self') as [[o self''] eff'].
      cbn [effects snd] in IH |- *. rewrite events_app, length_app.
      destruct (Session.known (key, structure)); cbn [List.length]; lia.
    + cbn [effects snd].
      destruct (Session.known (key, structure)); cbn [List.length]; lia.
Qed.

(** An invariant of the attributes and a property of the events, both
    kept by every record of a run, hold for the run. *)
Lemma ParseRecords_invariant (host : Host) (P : t -> Prop)
      (Q : MacAppFirewallLogEvent.t -> Prop)
      (records : list (string * ParseResults.t)) :
  (forall key structure self,
      In (key, structure) records ->
      P self ->
      P (self_after (ParseRecord host key structure self))
      /\ Forall Q (events (effects (ParseRecord host key structure self)))) ->
  forall self,
    P self ->
    P (self_after (ParseRecords host records self))
    /\ Forall Q (events (effects (ParseRecords host records self))).
Proof.
  induction records as [|[key structure] records IH]; intros Hstep self HP.
  - cbn. split; [exact HP | constructor].
  - rewrite ParseRecords_cons.
    destruct (Hstep key structure self (or_introl eq_refl) HP) as [HP' HQ'].
    destruct (ParseRecord host key structure self) as [[[u|e] self'] eff].
    + cbn [self_after effects fst snd] in HP', HQ'.
      assert (Hrest : forall key structure self,
                 In (key, structure) records ->
                 P self ->
                 P (self_after (ParseRecord host key structure self))
                 /\ Forall Q (events (effects
                                        (ParseRecord host key structure self)))).
      { intros k s0 self0 Hin. apply Hstep. right. exact Hin. }
      destruct (IH Hrest self' HP') as [HP'' HQ''].
      destruct (ParseRecords host records self') as [[o self''] eff'].
      cbn [self_after effects fst snd] in *.
      split; [exact HP''|].
      rewrite events_app. apply Forall_app. split; assumption.
    + cbn [self_after effects fst snd] in *. split; assumption.
Qed.

Lemma Forall_events_ParseRecord (host : Host) (key : string)
      (structure : ParseResults.t) (self : t)
      (Q : MacAppFirewallLogEvent.t -> Prop) :
  (forall month timestamp prev action,
      month_of structure = Some month ->
      composed host self structure month = Some timestamp ->
      Py.truthy timestamp = true ->
      (if String.eqb key "logline" then Some structure
       else previous_structure self) = Some prev ->
      decoded_action (ParseResults.action prev) = Some action ->
      Q (Session.event_of timestamp prev action)) ->
  Forall Q (events (effects (ParseRecord host key structure self))).
Proof.
  intros HQ.
  destruct (Session.known (key, structure)) eqn:Hknown.
  - rewrite (ParseRecord_known host key structure self Hknown).
    destruct (ParseLogLine_events host structure key self)
      as [-> | (month & timestamp & prev & action
                & Hm & Hc & Ht & Ha & Hd & _ & ->)].
    + constructor.
    + constructor; [|constructor]. eapply HQ; eassumption.
  - rewrite (ParseRecord_unknown host key structure self Hknown).
    constructor.
Qed.

(** X2: no event of a run carries the timestamp 0, from whatever
    attributes the run starts. *)
Theorem X2_no_event_at_timestamp_zero (host : Host)
        (records : list (string * ParseResults.t)) (self : t) :
  Forall (fun e => MacAppFirewallLogEvent.timestamp e <> 0)
         (events (effects (ParseRecords host records self))).
Proof.
  apply (@ParseRecords_invariant host (fun _ => True)
           (fun e => MacAppFirewallLogEvent.timestamp e <> 0) records);
    [|exact I].
  intros key structure self0 _ _. split; [exact I|].
  apply Forall_events_ParseRecord.
  intros month timestamp prev action _ _ Htruthy _ _. cbn.
  unfold Py.truthy in Htruthy.
  apply negb_true_iff, Z.eqb_neq in Htruthy. exact Htruthy.
Qed.

(** ** Invariants of a run *)

Lemma MONTH_DICT_range (name : string) (month : Z) :
  timelib.get timelib.MONTH_DICT name = Some month -> 1 <= month <= 12.
Proof.
  unfold timelib.MONTH_DICT. cbn [timelib.get].
  repeat (destruct (String.eqb _ name); [intros [= <-]; lia|]).
  discriminate.
Qed.

Lemma FromTimeParts_year (year month day hour minute second timestamp : Z) :
  timelib.FromTimeParts year month day hour minute second = Some timestamp ->
  1 <= year /\ 1 <= month <= 12.
Proof.
  unfold timelib.FromTimeParts, datetime.valid, datetime.MINYEAR.
  destruct (1 <=? year) eqn:Hy; cbn [andb]; [|discriminate].
  destruct (year <=? datetime.MAXYEAR); cbn [andb]; [|discriminate].
  destruct (1 <=? month) eqn:Hm1; cbn [andb]; [|discriminate].
  destruct (month <=? 12) eqn:Hm2; cbn [andb]; [|discriminate].
  intros _. apply Z.leb_le in Hy, Hm1, Hm2. lia.
Qed.

Lemma accepted_year (host : Host) (self : t) (structure : ParseResults.t) :
  accepted host self structure = true ->
  1 <= year_in_use host self structure.
Proof.
  intros Hacc.
  destruct (accepted_inv host self structure Hacc)
    as (month & timestamp & _ & Hcomposed & _).
  unfold composed in Hcomposed.
  destruct (ParseResults.time structure) as [[hour minute] second].
  apply FromTimeParts_year in Hcomposed. lia.
Qed.

(** The attributes that [_ParseLogLine] leaves: those of line 165 and of
    lines 169-172 if the line passes the timestamp check, those of line
    157 if it does not. *)
Lemma ParseLogLine_self_after (host : Host) (structure : ParseResults.t)
      (key : string) (self : t) :
  self_after (_ParseLogLine host structure key self)
  = if accepted host self structure then
      {| _year_use := year_in_use host self structure;
         _last_month := month_of structure;
         previous_structure :=
           if String.eqb key "logline" then Some structure
           else previous_structure self |}
    else self_at_composition host self structure.
Proof.
  rewrite ParseLogLine_run. cbv zeta. unfold accepted.
  destruct (month_of structure) as [month|]; [|reflexivity].
  destruct (composed host self structure month) as [timestamp|];
    [|reflexivity].
  destruct (Py.truthy timestamp); cbn [negb]; [|reflexivity].
  destruct (if String.eqb key "logline" then Some structure
            else previous_structure self) as [prev|]; [|reflexivity].
  destruct (decoded_action (ParseResults.action prev)); reflexivity.
Qed.

Lemma session_invariant_step (host : Host)
      (records : list (string * ParseResults.t)) (key : string)
      (structure : ParseResults.t) (self : t) :
  In (key, structure) records ->
  Session.invariant records self ->
  Session.invariant records (self_after (ParseRecord host key structure self)).
Proof.
  intros Hin [Hmonth Hprev].
  destruct (Session.known (key, structure)) eqn:Hknown;
    [|rewrite (ParseRecord_unknown host key structure self Hknown);
      split; assumption].
  rewrite (ParseRecord_known host key structure self Hknown).
  rewrite ParseLogLine_self_after.
  destruct (accepted host self structure) eqn:Hacc.
  - destruct (accepted_inv host self structure Hacc)
      as (month & timestamp & Hm & _ & _).
    split; cbn [_year_use _last_month previous_structure].
    + intros m. rewrite Hm. intros [= <-].
      exact (MONTH_DICT_range _ Hm).
    + intros prev Hacting.
      split; [|split; [exact (accepted_year host self structure Hacc)
                      |rewrite Hm; discriminate]].
      destruct (String.eqb_spec key "logline") as [->|_].
      * injection Hacting as <-. exact Hin.
      * apply Hprev. exact Hacting.
  - unfold self_at_composition, year_in_use, rollover, last_month_checked.
    split; cbn [_year_use _last_month previous_structure].
    + intros m.
      destruct (Py.truthy_opt (_last_month self)); [apply Hmonth|].
      apply MONTH_DICT_range.
    + intros prev Hsame.
      destruct (Hprev prev Hsame) as (Hlog & Hyear & Hkept).
      destruct (_last_month self) as [kept|] eqn:Hlast; [|contradiction].
      assert (Hrange : 1 <= kept <= 12) by (apply Hmonth; reflexivity).
      assert (Htruthy : Py.truthy kept = true) by (apply truthy_positive; lia).
      cbn [Py.truthy_opt]. rewrite Htruthy.
      destruct (resolution_resolved host self) as [-> _]; [lia|].
      split; [exact Hlog|]. split; [|discriminate].
      destruct (Py.lt _ _); lia.
Qed.

(** X3: in a run that starts with no record cached, for every event
    there is a full record of the run whose agent, computer name and
    status the event carries as parsed, whose process name it carries
    stripped and whose action it carries decoded.  The timestamp of the
    event, which is composed from the line at hand, is not covered. *)
Theorem X3_events_come_from_full_records (host : Host)
        (records : list (string * ParseResults.t)) (self : t) :
  previous_structure self = None ->
  Forall (fun e =>
            exists prev,
              In ("logline", prev) records
              /\ MacAppFirewallLogEvent.agent e = ParseResults.agent prev
              /\ MacAppFirewallLogEvent.computer_name e
                 = ParseResults.computer_name prev
              /\ MacAppFirewallLogEvent.status e = ParseResults.status prev
              /\ MacAppFirewallLogEvent.process_name e
                 = Py.strip (ParseResults.process_name prev)
              /\ decoded_action (ParseResults.action prev)
                 = Some (MacAppFirewallLogEvent.action e))
         (events (effects (ParseRecords host records self))).
Proof.
  intros Hnone.
  apply (@ParseRecords_invariant host
           (fun s => forall prev, previous_structure s = Some prev ->
                                  In ("logline", prev) records)
           _ records).
  - intros key structure self0 Hin Hcached. split.
    + intros prev. rewrite previous_structure_after.
      destruct (String.eqb_spec key "logline") as [->|_]; cbn [andb].
      * destruct (accepted host self0 structure); [|apply Hcached].
        intros [= <-]. exact Hin.
      * apply Hcached.
    + apply Forall_events_ParseRecord.
      intros month timestamp prev action _ _ _ Hacting Haction.
      exists prev. cbn. repeat split; try exact Haction.
      destruct (String.eqb_spec key "logline") as [->|_].
      * injection Hacting as <-. exact Hin.
      * apply Hcached. exact Hacting.
  - intros prev. rewrite Hnone. discriminate.
Qed.

Lemma X3_events_come_from_full_records_witness :
  Forall (fun e =>
            exists prev,
              In ("logline", prev)
                 [("logline", Scenario.dropbox);
                  ("repeated", Scenario.last_message_repeated)]
              /\ MacAppFirewallLogEvent.agent e = ParseResults.agent prev
              /\ MacAppFirewallLogEvent.computer_name e
                 = ParseResults.computer_name prev
              /\ MacAppFirewallLogEvent.status e = ParseResults.status prev
              /\ MacAppFirewallLogEvent.process_name e
                 = Py.strip (ParseResults.process_name prev)
              /\ decoded_action (ParseResults.action prev)
                 = Some (MacAppFirewallLogEvent.action e))
         (events (effects (ParseRecords Scenario.host2013
                             [("logline", Scenario.dropbox);
                              ("repeated", Scenario.last_message_repeated)]
                             __init__))).
Proof.
  apply (@X3_events_come_from_full_records Scenario.host2013
           [("logline", Scenario.dropbox);
            ("repeated", Scenario.last_message_repeated)] __init__).
  reflexivity.
Defined.

(** X4: in every state that a fresh parser reaches, the month kept is
    unset or a month number from 1 to 12, and a cached record is one of
    the full records handed in; while a record is cached, the year is at
    least 1 and a month is kept. *)
Theorem X4_session_invariant (host : Host)
        (records : list (string * ParseResults.t)) :
  let self := self_after (ParseRecords host records __init__) in
  (forall month, _last_month self = Some month -> 1 <= month <= 12)
  /\ (forall prev,
         previous_structure self = Some prev ->
         In ("logline", prev) records
         /\ 1 <= _year_use self
         /\ _last_month self <> None).
Proof.
  cbv zeta.
  apply (@ParseRecords_invariant host (Session.invariant records)
           (fun _ => True) records).
  - intros key structure self Hin Hinv. split.
    + apply session_invariant_step; assumption.
    + apply Forall_forall. intros; exact I.
  - split; cbn; intros ? H; discriminate H.
Qed.

(** ** Lines that repeat, keys that are unknown *)

Lemma year_in_use_again (host : Host) (self : t) (structure : ParseResults.t)
      (month : Z) (cached : option ParseResults.t) :
  month_of structure = Some month ->
  1 <= year_in_use host self structure ->
  year_in_use host
    {| _year_use := year_in_use host self structure;
       _last_month := Some month;
       previous_structure := cached |} structure
  = year_in_use host self structure.
Proof.
  intros Hmonth Hyear.
  unfold year_in_use at 1.
  destruct (resolution_resolved host
              {| _year_use := year_in_use host self structure;
                 _last_month := Some month;
                 previous_structure := cached |}) as [-> _];
    [cbn; lia|].
  cbn [_year_use _last_month]. rewrite Hmonth.
  unfold rollover, last_month_checked. cbn [Py.truthy_opt].
  destruct (Py.truthy month); rewrite lt_irrefl; lia.
Qed.

(** X5: a line that passes the timestamp check can be handed in again:
    the second call has the outcome and the events of the first and
    leaves the attributes as the first left them. *)
Theorem X5_repeating_a_line_is_idempotent (host : Host) (self : t)
        (structure : ParseResults.t) (key : string) :
  accepted host self structure = true ->
  let r1 := _ParseLogLine host structure key self in
  let r2 := _ParseLogLine host structure key (self_after r1) in
  outcome r2 = outcome r1
  /\ events (effects r2) = events (effects r1)
  /\ self_after r2 = self_after r1.
Proof.
  intros Hacc r1 r2.
  destruct (accepted_inv host self structure Hacc)
    as (month & timestamp & Hmonth & Hcomposed & Htruthy).
  pose proof (accepted_year host self structure Hacc) as Hyear.
  assert (Hself1 : self_after r1
                   = {| _year_use := year_in_use host self structure;
                        _last_month := Some month;
                        previous_structure :=
                          if String.eqb key "logline" then Some structure
                          else previous_structure self |}).
  { subst r1. rewrite ParseLogLine_self_after, Hacc, Hmonth. reflexivity. }
  subst r2. rewrite Hself1. subst r1.
  set (cached := if String.eqb key "logline" then Some structure
                 else previous_structure self) in *.
  set (self1 := {| _year_use := year_in_use host self structure;
                   _last_month := Some month;
                   previous_structure := cached |}).
  assert (Hyear1 : year_in_use host self1 structure
                   = year_in_use host self structure)
    by (apply year_in_use_again; assumption).
  assert (Hcomposed1 : composed host self1 structure month = Some timestamp).
  { unfold composed in *. rewrite Hyear1. exact Hcomposed. }
  assert (Hacting1 : (if String.eqb key "logline" then Some structure
                      else previous_structure self1) = cached).
  { subst cached self1. cbn [previous_structure].
    destruct (String.eqb key "logline"); reflexivity. }
  rewrite !ParseLogLine_run. cbv zeta.
  rewrite Hmonth, Hcomposed, Hcomposed1, Htruthy, Hacting1, Hyear1.
  fold cached. cbn [negb].
  destruct cached as [prev|].
  - destruct (decoded_action (ParseResults.action prev)) as [action|];
      cbn [outcome effects self_after fst snd];
      rewrite ?events_app, !events_resolution_effects; auto.
  - cbn [outcome effects self_after fst snd].
    rewrite !events_resolution_effects. auto.
Qed.

Lemma X5_repeating_a_line_is_idempotent_witness :
  let r1 := _ParseLogLine Scenario.host2013 Scenario.dropbox "logline"
              __init__ in
  let r2 := _ParseLogLine Scenario.host2013 Scenario.dropbox "logline"
              (self_after r1) in
  outcome r2 = outcome r1
  /\ events (effects r2) = events (effects r1)
  /\ self_after r2 = self_after r1.
Proof.
  apply (@X5_repeating_a_line_is_idempotent Scenario.host2013 __init__
           Scenario.dropbox "logline").
  reflexivity.
Defined.

(** X6: records under a key that [ParseRecord] does not know are inert:
    each is answered by a warning, and a run has the outcome, the final
    attributes and the events of the run without them. *)
Theorem X6_unknown_keys_are_inert (host : Host)
        (records : list (string * ParseResults.t)) (self : t) :
  let r := ParseRecords host records self in
  let r' := ParseRecords host (filter Session.known records) self in
  outcome r = outcome r'
  /\ self_after r = self_after r'
  /\ events (effects r) = events (effects r').
Proof.
  cbv zeta. revert self.
  induction records as [|[key structure] records IH]; intros self.
  - auto.
  - cbn [filter].
    destruct (Session.known (key, structure)) eqn:Hknown.
    + rewrite !ParseRecords_cons.
      destruct (ParseRecord host key structure self) as [[[u|e] self'] eff];
        [|auto].
      specialize (IH self').
      destruct (ParseRecords host records self') as [[o1 s1] e1].
      destruct (ParseRecords host (filter Session.known records) self')
        as [[o2 s2] e2].
      cbn [outcome self_after effects fst snd] in *.
      destruct IH as (-> & -> & Hev).
      rewrite !events_app, Hev. auto.
    + rewrite ParseRecords_cons,
        (ParseRecord_unknown host key structure self Hknown).
      specialize (IH self).
      destruct (ParseRecords host records self) as [[o1 s1] e1].
      cbn [outcome self_after effects fst snd events app] in *.
      exact IH.
Qed.

(** ** The year over a run *)

(** X7: from a year that is set and positive, a run never lowers the
    year and raises it by at most one for each record. *)
Theorem X7_year_moves_forward_one_per_record (host : Host)
        (records : list (string * ParseResults.t)) :
  forall self,
    0 < _year_use self ->
    let year := _year_use (self_after (ParseRecords host records self)) in
    _year_use self <= year <= _year_use self + Z.of_nat (List.length records).
Proof.
  induction records as [|[key structure] records IH]; intros self Hset.
  - cbn. lia.
  - cbv zeta. rewrite ParseRecords_cons.
    assert (Hstep : _year_use self
                    <= _year_use (self_after
                                    (ParseRecord host key structure self))
                    <= _year_use self + 1).
    { destruct (Session.known (key, structure)) eqn:Hknown.
      - rewrite (ParseRecord_known host key structure self Hknown).
        destruct (year_and_month_after host structure key self) as [-> _].
        destruct (resolution_resolved host self) as [-> _]; [lia|].
        destruct (rollover _ _); lia.
      - rewrite (ParseRecord_unknown host key structure self Hknown).
        cbn. lia. }
    destruct (ParseRecord host key structure self) as [[[u|e] self'] eff];
      cbn [self_after fst snd] in Hstep.
    + assert (Hset' : 0 < _year_use self') by lia.
      specialize (IH self' Hset'). cbv zeta in IH.
      destruct (ParseRecords host records self') as [[o self''] eff'].
      cbn [self_after fst snd List.length] in *. lia.
    + cbn [self_after fst snd List.length]. lia.
Qed.

Lemma X7_year_moves_forward_one_per_record_witness :
  let self := self_after (ParseRecord Scenario.host2013 "logline"
                            Scenario.dec31 __init__) in
  let year := _year_use
                (self_after (ParseRecords Scenario.host2013
                               [("logline", Scenario.jan32);
                                ("logline", Scenario.jan2)] self)) in
  _year_use self <= year <= _year_use self + 2.
Proof.
  apply (@X7_year_moves_forward_one_per_record Scenario.host2013
           [("logline", Scenario.jan32); ("logline", Scenario.jan2)]
           (self_after (ParseRecord Scenario.host2013 "logline"
                          Scenario.dec31 __init__))).
  vm_compute. reflexivity.
Defined.

(** ** The text fields of an event *)

Lemma lstrip_first (s : string) : Text.no_space (Text.first_char (Py.lstrip s)).
Proof.
  induction s as [|c s IH]; cbn [Py.lstrip]; [exact I|].
  destruct (Py.is_space c) eqn:Hc; [exact IH | exact Hc].
Qed.

Lemma rstrip_last (s : string) : Text.no_space (Text.last_char (Py.rstrip s)).
Proof.
  induction s as [|c s IH]; cbn [Py.rstrip]; [exact I|].
  destruct (Py.rstrip s) as [|d r].
  - destruct (Py.is_space c) eqn:Hc; [exact I | exact Hc].
  - exact IH.
Qed.

Lemma rstrip_first (c : ascii) (s : string) :
  Py.is_space c = false ->
  Text.first_char (Py.rstrip (String c s)) = Some c.
Proof.
  intros Hc. cbn [Py.rstrip]. rewrite Hc.
  destruct (Py.rstrip s); reflexivity.
Qed.

Lemma strip_no_space (s : string) :
  Text.no_space (Text.first_char (Py.strip s))
  /\ Text.no_space (Text.last_char (Py.strip s)).
Proof.
  unfold Py.strip. split; [|apply rstrip_last].
  pose proof (lstrip_first s) as Hfirst.
  destruct (Py.lstrip s) as [|c t]; [exact I|].
  cbn [Text.first_char Text.no_space] in Hfirst.
  rewrite (@rstrip_first c t Hfirst). exact Hfirst.
Qed.

(** X8: the process name of every event of a run neither begins nor ends
    with whitespace, whatever blanks the grammar left around it. *)
Theorem X8_process_names_are_stripped (host : Host)
        (records : list (string * ParseResults.t)) (self : t) :
  Forall (fun e =>
            Text.no_space
              (Text.first_char (MacAppFirewallLogEvent.process_name e))
            /\ Text.no_space
                 (Text.last_char (MacAppFirewallLogEvent.process_name e)))
         (events (effects (ParseRecords host records self))).
Proof.
  apply (@ParseRecords_invariant host (fun _ => True) _ records); [|exact I].
  intros key structure self0 _ _. split; [exact I|].
  apply Forall_events_ParseRecord.
  intros month timestamp prev action _ _ _ _ _. cbn.
  apply strip_no_space.
Qed.




Lemma byte_of_nonneg (c : ascii) : 0 <= Py.byte_of c.
Proof. unfold Py.byte_of. apply N2Z.is_nonneg. Qed.

(** Bytes below 128 decode to themselves. *)
Lemma decode_ascii (e : Utf8.errors) (s : string) :
  Text.all_chars Text.is_ascii s = true ->
  Utf8.str_decode e s = Some (Py.bytes s).
Proof.
  unfold Utf8.str_decode.
  induction s as [|c s IH]; cbn [Text.all_chars Py.bytes]; [reflexivity|].
  intros H. apply andb_true_iff in H. destruct H as [Hc Hs].
  cbn [Utf8.decode]. unfold Utf8.utf8_code_length.
  unfold Text.is_ascii in Hc. change 0x80 with 128. rewrite Hc.
  cbn [Z.eqb Pos.eqb]. rewrite (IH Hs). reflexivity.
Qed.



(** ** [_GetYear] *)

Lemma fromtimestamp_year_range (time : Z) (timezone : datetime.tzinfo)
      (y : Z) :
  datetime.fromtimestamp_year time timezone = Some y -> 1 <= y <= 9999.
Proof.
  unfold datetime.fromtimestamp_year.
  destruct (datetime.fromtimestamp time timezone) eqn:H; try discriminate.
  intros [= <-]. exact (fromtimestamp_converted_range _ _ H).
Qed.

(** X11: [_GetYear] leaves the attributes of the parser as they are and
    ends in one of three ways.  It returns a year from 1 to 9999 read off
    the file, and then logs nothing; or it returns the current year, and
    then the fallback is logged as an error before the clock is asked; or
    it raises [OverflowError], with nothing logged and the clock not
    asked.  It raises exactly when the time it reads is not zero and the
    conversion of that time raises [OverflowError]. *)
Theorem X11_GetYear_returns_logs_or_overflows (host : Host)
        (stat : option VFSStat) (timezone : datetime.tzinfo) (self : t) :
  let r := Overflow._GetYear host stat timezone self in
  ((exists year, r = (Returned year, self, []) /\ 1 <= year <= 9999)
   \/ (exists message,
         r = (Returned (GetCurrentYear host), self,
              [logging ERROR message; call_GetCurrentYear]))
   \/ r = (Raised OverflowError, self, []))
  /\ (outcome r = Raised OverflowError
      <-> stat_time stat <> 0
          /\ datetime.fromtimestamp (stat_time stat) timezone
             = datetime.raises_OverflowError).
Proof.
  cbv zeta. unfold Overflow._GetYear.
  replace (if negb (Py.truthy (getattr stat crtime 0))
           then getattr stat ctime 0 else getattr stat crtime 0)
    with (stat_time stat)
    by (unfold stat_time; destruct (Py.truthy _); reflexivity).
  destruct (Py.truthy (stat_time stat)) eqn:Htime; cbn [negb].
  - assert (Hnonzero : stat_time stat <> 0).
    { unfold Py.truthy in Htime. apply negb_true_iff, Z.eqb_neq in Htime.
      exact Htime. }
    destruct (datetime.fromtimestamp (stat_time stat) timezone) as [y| |]
      eqn:Hy.
    + split.
      * left. exists y. split; [reflexivity|].
        exact (fromtimestamp_converted_range _ _ Hy).
      * split; [discriminate | intros [_ H]; discriminate H].
    + split.
      * right. left. eexists. reflexivity.
      * split; [discriminate | intros [_ H]; discriminate H].
    + split.
      * right. right. reflexivity.
      * split; [intros _; split; [exact Hnonzero | reflexivity]
               | reflexivity].
  - split.
    + right. left. eexists. reflexivity.
    + split; [discriminate|]. intros [H _]. exfalso. apply H.
      unfold Py.truthy in Htime. apply negb_false_iff, Z.eqb_eq in Htime.
      exact Htime.
Qed.

Lemma X11_GetYear_returns_logs_or_overflows_witness :
  outcome (Overflow._GetYear Scenario.host_at_end_of_9999
             (GetStat Scenario.host_at_end_of_9999) Scenario.one_hour_east
             __init__)
  = Raised OverflowError.
Proof.
  apply (@X11_GetYear_returns_logs_or_overflows Scenario.host_at_end_of_9999
           (GetStat Scenario.host_at_end_of_9999) Scenario.one_hour_east
           __init__).
  split; [discriminate | reflexivity].
Defined.

(** X12: [_GetYear] reads [ctime] only if [crtime] is missing or zero:
    with a [crtime] that is not zero the value of [ctime] makes no
    difference; a [crtime] of zero counts as missing, and [ctime] is
    then used as [crtime] would be; a stat object without either time
    gives what no stat object gives. *)
Theorem X12_GetYear_prefers_crtime (host : Host) (timezone : datetime.tzinfo)
        (self : t) :
  (forall c x y,
      c <> 0 ->
      _GetYear host (Some {| crtime := Some c; ctime := x |}) timezone self
      = _GetYear host (Some {| crtime := Some c; ctime := y |}) timezone self)
  /\ (forall x,
         _GetYear host (Some {| crtime := Some 0; ctime := x |}) timezone self
         = _GetYear host (Some {| crtime := x; ctime := None |}) timezone self)
  /\ (forall x,
         _GetYear host (Some {| crtime := None; ctime := x |}) timezone self
         = _GetYear host (Some {| crtime := x; ctime := None |}) timezone self)
  /\ _GetYear host (Some {| crtime := None; ctime := None |}) timezone self
     = _GetYear host None timezone self.
Proof.
  unfold _GetYear, getattr. cbn [crtime ctime].
  repeat split.
  - intros c x y Hc. rewrite (truthy_nonzero Hc). reflexivity.
  - intros [x|]; cbn [Py.truthy Z.eqb negb]; [|reflexivity].
    destruct (Py.truthy x) eqn:Hx; cbn [negb]; rewrite ?Hx; reflexivity.
  - intros [x|]; cbn [Py.truthy Z.eqb negb]; [|reflexivity].
    destruct (Py.truthy x) eqn:Hx; cbn [negb]; rewrite ?Hx; reflexivity.
Qed.

(** ** When [_ParseLogLine] raises *)

(** X13: the exceptions of [_ParseLogLine].  It never lets
    [UnicodeDecodeError] out.  It raises [OverflowError] exactly when the
    year is not set, the year hint is zero and the conversion of the file
    time raises it.  Otherwise, on a line whose month name is known, it
    returns, unless it is a line under another key than [logline] that
    passes the timestamp check while no record is cached: then, and only
    then, it raises [AttributeError]. *)
Theorem X13_ParseLogLine_exceptions (host : Host) (self : t)
        (structure : ParseResults.t) (key : string) :
  let r := Overflow._ParseLogLine host structure key self in
  outcome r <> Raised UnicodeDecodeError
  /\ (outcome r = Raised OverflowError <-> Overflow.raises host self = true)
  /\ (month_of structure <> None ->
      (outcome r = Returned tt \/ outcome r = Raised AttributeError
       \/ outcome r = Raised OverflowError)
      /\ (outcome r = Raised AttributeError
          <-> Overflow.raises host self = false
              /\ String.eqb key "logline" = false
              /\ previous_structure self = None
              /\ accepted host self structure = true)).
Proof.
  cbv zeta.
  destruct (Overflow.raises host self) eqn:Hraises.
  { rewrite (@ParseLogLine_overflow host structure key self Hraises).
    cbn [outcome fst].
    split; [discriminate|]. split; [split; reflexivity|]. intros _.
    split; [right; right; reflexivity|].
    split; [discriminate | intros (H & _); discriminate H]. }
  rewrite (@ParseLogLine_without_overflow host structure key self Hraises).
  rewrite ParseLogLine_run. cbv zeta. unfold accepted.
  destruct (month_of structure) as [month|];
    [|split; [discriminate|];
      split; [split; discriminate
             | intros H; contradiction H; reflexivity]].
  set (timestamp := match composed host self structure month with
                    | Some timestamp => timestamp
                    | None => 0
                    end).
  assert (Hcheck : match composed host self structure month with
                   | Some timestamp => Py.truthy timestamp
                   | None => false
                   end = Py.truthy timestamp).
  { subst timestamp. destruct (composed host self structure month);
      reflexivity. }
  rewrite Hcheck. clear Hcheck.
  destruct (Py.truthy timestamp); cbn [negb].
  - destruct (String.eqb key "logline").
    + destruct (decoded_action_total (ParseResults.action structure))
        as [action ->].
      cbn [outcome fst]. split; [discriminate|].
      split; [split; discriminate|]. intros _.
      split; [left; reflexivity|].
      split; [discriminate | intros (_ & H & _); discriminate H].
    + destruct (previous_structure self) as [prev|].
      * destruct (decoded_action_total (ParseResults.action prev))
          as [action ->].
        cbn [outcome fst]. split; [discriminate|].
        split; [split; discriminate|]. intros _.
        split; [left; reflexivity|].
        split; [discriminate | intros (_ & _ & H & _); discriminate H].
      * cbn [outcome fst]. split; [discriminate|].
        split; [split; discriminate|]. intros _.
        split; [right; left; reflexivity|]. split; auto.
  - cbn [outcome fst]. split; [discriminate|].
    split; [split; discriminate|]. intros _.
    split; [left; reflexivity|].
    split; [discriminate | intros (_ & _ & _ & H); discriminate H].
Qed.

Lemma X13_ParseLogLine_exceptions_witness :
  let r := Overflow._ParseLogLine Scenario.host2013
             Scenario.last_message_repeated "repeated" __init__ in
  (outcome r = Returned tt \/ outcome r = Raised AttributeError
   \/ outcome r = Raised OverflowError)
  /\ (outcome r = Raised AttributeError
      <-> Overflow.raises Scenario.host2013 __init__ = false
          /\ String.eqb "repeated" "logline" = false
          /\ previous_structure __init__ = None
          /\ accepted Scenario.host2013 __init__
               Scenario.last_message_repeated = true).
Proof.
  apply (@X13_ParseLogLine_exceptions Scenario.host2013 __init__
           Scenario.last_message_repeated "repeated").
  discriminate.
Defined.

(** ** Two lines in a row *)



(** ** [GetUnicodeString] *)

Lemma decode_length_bounded (e : Utf8.errors) (n : nat) :
  forall s text,
    (List.length s <= n)%nat ->
    Utf8.decode e s = Some text ->
    (List.length text <= List.length s)%nat.
Proof.
  induction n as [|n IH]; intros s text Hlen Hs.
  - destruct s; [|simpl in Hlen; lia].
    injection Hs as <-. apply Nat.le_refl.
  - destruct s as [|b0 s1]; [injection Hs as <-; apply Nat.le_0_l|].
    cbn [Utf8.decode] in Hs.
    repeat match type of Hs with
           | context [match ?l with [] => _ | _ :: _ => _ end] =>
               is_var l; destruct l; cbv beta iota in Hs
           | context [if ?c then _ else _] => destruct c
           end;
      unfold Utf8.on_char, Utf8.on_error in Hs;
      destruct e; try discriminate Hs;
      cbn [option_map] in Hs;
      try (injection Hs as <-; cbn [List.length]; lia);
      match type of Hs with
      | context [Utf8.decode ?h ?tail] =>
          destruct (Utf8.decode h tail) as [text'|] eqn:Htail;
          cbn [option_map] in Hs; try discriminate Hs;
          injection Hs as <-;
          assert (Hind := IH tail text');
          cbn [List.length] in Hlen, Hind |- *;
          assert (List.length text' <= List.length tail)%nat
            by (apply Hind; [cbn [List.length]; lia | exact Htail]);
          cbn [List.length] in *; lia
      end.
Qed.

Lemma bytes_length (s : string) :
  List.length (Py.bytes s) = String.length s.
Proof. induction s as [|c s IH]; cbn; [reflexivity | rewrite IH; reflexivity]. Qed.

(** X15: [GetUnicodeString] never fails, whatever bytes it is given, and
    what it returns is text that a second call returns unchanged. *)
Theorem X15_GetUnicodeString_is_total_and_idempotent (o : utils.object) :
  exists text,
    utils.GetUnicodeString o = Some text
    /\ utils.GetUnicodeString (utils.Unicode text) = utils.GetUnicodeString o.
Proof.
  destruct o as [text|s|n|]; cbn [utils.GetUnicodeString].
  - exists text. split; reflexivity.
  - destruct (decode_ignore_total (utils.str (utils.Str s))) as [text Htext].
    exists text. split; [exact Htext | symmetry; exact Htext].
  - destruct (decode_ignore_total (utils.str (utils.Int n))) as [text Htext].
    exists text. split; [exact Htext | symmetry; exact Htext].
  - destruct (decode_ignore_total (utils.str utils.NoneType)) as [text Htext].
    exists text. split; [exact Htext | symmetry; exact Htext].
Qed.

(** X16: on a byte string, [GetUnicodeString] returns the strict UTF-8
    decoding when there is one, so plain ASCII comes back byte for byte;
    on other bytes it returns a text that is never longer than the
    bytes. *)
Theorem X16_GetUnicodeString_on_bytes (s : string) :
  (forall text,
      Utf8.str_decode Utf8.strict s = Some text ->
      utils.GetUnicodeString (utils.Str s) = Some text)
  /\ (Text.all_chars Text.is_ascii s = true ->
      utils.GetUnicodeString (utils.Str s) = Some (Py.bytes s))
  /\ (forall text,
         utils.GetUnicodeString (utils.Str s) = Some text ->
         (List.length text <= String.length s)%nat).
Proof.
  cbn [utils.GetUnicodeString utils.str]. repeat split.
  - intros text Hstrict. exact (decode_valid_any_handler Utf8.ignore _ Hstrict).
  - apply decode_ascii.
  - intros text Htext. rewrite <- bytes_length.
    apply (decode_length_bounded Utf8.ignore (n := List.length (Py.bytes s)));
      [apply Nat.le_refl | exact Htext].
Qed.

(** ** The grammar *)

Lemma span_upto_spec (p : ascii -> bool) (s : string) :
  forall limit a b,
    pyparsing.span_upto p limit s = (a, b) ->
    Text.all_chars p a = true
    /\ (forall n, limit = Some n -> (String.length a <= n)%nat).
Proof.
  induction s as [|c s IH]; intros limit a b H.
  - cbn in H. injection H as <- <-. split; [reflexivity|]. intros; cbn; lia.
  - cbn [pyparsing.span_upto] in H.
    assert (Hstop : (a, b) = (EmptyString, String c s) ->
                    Text.all_chars p a = true
                    /\ (forall n, limit = Some n -> (String.length a <= n)%nat)).
    { intros [= -> ->]. split; [reflexivity|]. intros; cbn; lia. }
    destruct limit as [[|k]|].
    + apply Hstop. symmetry. exact H.
    + destruct (p c) eqn:Hc; [|apply Hstop; symmetry; exact H].
      cbn [option_map Nat.pred] in H.
      destruct (pyparsing.span_upto p (Some k) s) as [a' b'] eqn:Hspan.
      injection H as <- <-.
      destruct (IH _ _ _ Hspan) as [Hall Hlen].
      split; [cbn; rewrite Hc, Hall; reflexivity|].
      intros n [= <-]. cbn. specialize (Hlen k eq_refl). lia.
    + destruct (p c) eqn:Hc; [|apply Hstop; symmetry; exact H].
      cbn [option_map] in H.
      destruct (pyparsing.span_upto p None s) as [a' b'] eqn:Hspan.
      injection H as <- <-.
      destruct (IH _ _ _ Hspan) as [Hall _].
      split; [cbn; rewrite Hc, Hall; reflexivity|].
      intros n Hn. discriminate Hn.
Qed.

Lemma Word_spec (initChars bodyChars : ascii -> bool) (min max exact : nat)
      (s token rest : string) :
  pyparsing.Word initChars bodyChars min max exact s = Some (token, rest) ->
  exists c body,
    token = String c body
    /\ initChars c = true
    /\ Text.all_chars bodyChars body = true
    /\ ((if Nat.ltb 0 exact then exact else min) <= String.length token)%nat
    /\ (forall m,
           (if Nat.ltb 0 exact then Some exact
            else if Nat.ltb 0 max then Some max else None) = Some m ->
           (String.length token <= m)%nat).
Proof.
  unfold pyparsing.Word.
  destruct (pyparsing.preParse pyparsing.DEFAULT_WHITE_CHARS s) as [|c s'];
    [discriminate|].
  destruct (initChars c) eqn:Hinit; cbn [negb]; [|discriminate].
  set (maxLen := if Nat.ltb 0 exact then Some exact
                 else if Nat.ltb 0 max then Some max else None).
  set (minLen := if Nat.ltb 0 exact then exact else min).
  destruct (pyparsing.span_upto bodyChars (option_map Nat.pred maxLen) s')
    as [body rest'] eqn:Hspan.
  destruct (Nat.ltb (String.length (String c body)) minLen) eqn:Hmin;
    [discriminate|].
  destruct (Nat.ltb 0 max && pyparsing.next_satisfies bodyChars rest');
    [discriminate|].
  intros [= <- <-].
  destruct (span_upto_spec _ _ _ Hspan) as [Hall Hlen].
  exists c, body. repeat split; try assumption.
  - apply Nat.ltb_ge in Hmin. exact Hmin.
  - intros m Hm. rewrite Hm in Hlen. cbn [option_map] in Hlen.
    specialize (Hlen _ eq_refl).
    assert (0 < m)%nat.
    { subst maxLen. destruct (Nat.ltb 0 exact) eqn:He.
      - injection Hm as <-. apply Nat.ltb_lt. exact He.
      - destruct (Nat.ltb 0 max) eqn:Hx; [|discriminate].
        injection Hm as <-. apply Nat.ltb_lt. exact Hx. }
    cbn [String.length]. lia.
Qed.

Lemma MONTH_spec (s token rest : string) :
  text_parser.MONTH s = Some (token, rest) -> Text.month_token token = true.
Proof.
  intros H. apply Word_spec in H.
  destruct H as (c & body & -> & Hc & Hbody & Hmin & Hmax).
  cbn [Nat.ltb Nat.leb] in Hmin, Hmax. specialize (Hmax _ eq_refl).
  cbn [String.length] in Hmin, Hmax.
  destruct body as [|b [|d [|x body]]]; cbn [String.length] in *; try lia.
  cbn [Text.all_chars] in Hbody.
  apply andb_true_iff in Hbody. destruct Hbody as [Hb Hd].
  apply andb_true_iff in Hd. destruct Hd as [Hd _].
  cbn [Text.month_token].
  change (pyparsing.uppercase c = true) in Hc.
  unfold pyparsing.uppercase in Hc. unfold pyparsing.lowercase in Hb, Hd.
  rewrite Hc, Hb, Hd. reflexivity.
Qed.

Lemma digit_value (c : ascii) :
  pyparsing.nums c = true -> 0 <= Py.byte_of c - 48 <= 9.
Proof.
  unfold pyparsing.nums, Py.is_digit, Py.in_range. intros H.
  apply andb_true_iff in H. destruct H as [H1 H2].
  apply Z.leb_le in H1, H2. lia.
Qed.

Lemma int_of_digits_two (token : string) :
  Text.all_chars pyparsing.nums token = true ->
  (String.length token <= 2)%nat ->
  Text.two_digit (text_parser.int_of_digits token) = true.
Proof.
  intros Hall Hlen. unfold Text.two_digit, text_parser.int_of_digits.
  destruct token as [|a [|b [|c token]]]; cbn [String.length] in Hlen;
    try lia; cbn [Text.all_chars] in Hall; cbn [Py.bytes fold_left].
  - reflexivity.
  - apply andb_true_iff in Hall. destruct Hall as [Ha _].
    pose proof (digit_value _ Ha).
    apply andb_true_iff. split; apply Z.leb_le; lia.
  - apply andb_true_iff in Hall. destruct Hall as [Ha Hb].
    apply andb_true_iff in Hb. destruct Hb as [Hb _].
    pose proof (digit_value _ Ha). pose proof (digit_value _ Hb).
    apply andb_true_iff. split; apply Z.leb_le; lia.
Qed.

Lemma digits_spec (min max exact : nat) (s token rest : string) :
  (if Nat.ltb 0 exact then Some exact
   else if Nat.ltb 0 max then Some max else None) = Some 2%nat ->
  pyparsing.Word pyparsing.nums pyparsing.nums min max exact s
  = Some (token, rest) ->
  Text.two_digit (text_parser.int_of_digits token) = true.
Proof.
  intros Hlimit H. apply Word_spec in H.
  destruct H as (c & body & -> & Hc & Hbody & _ & Hmax).
  apply int_of_digits_two.
  - cbn [Text.all_chars]. rewrite Hc, Hbody. reflexivity.
  - apply Hmax. exact Hlimit.
Qed.

Lemma TWO_DIGITS_spec (s rest : string) (v : Z) :
  text_parser.TWO_DIGITS s = Some (v, rest) -> Text.two_digit v = true.
Proof.
  unfold text_parser.TWO_DIGITS, pyparsing.bind, pyparsing.ret.
  destruct (pyparsing.Word pyparsing.nums pyparsing.nums 1 0 2 s)
    as [[token s']|] eqn:Hword; [|discriminate].
  intros [= <- <-]. eapply digits_spec; [|exact Hword]. reflexivity.
Qed.

Lemma ONE_OR_TWO_DIGITS_spec (s rest : string) (v : Z) :
  text_parser.ONE_OR_TWO_DIGITS s = Some (v, rest) -> Text.two_digit v = true.
Proof.
  unfold text_parser.ONE_OR_TWO_DIGITS, pyparsing.bind, pyparsing.ret.
  destruct (pyparsing.Word pyparsing.nums pyparsing.nums 1 2 0 s)
    as [[token s']|] eqn:Hword; [|discriminate].
  intros [= <- <-]. eapply digits_spec; [|exact Hword]. reflexivity.
Qed.

Lemma TIME_spec (s rest : string) (hour minute second : Z) :
  text_parser.TIME s = Some ((hour, minute, second), rest) ->
  Text.two_digit hour && Text.two_digit minute && Text.two_digit second = true.
Proof.
  unfold text_parser.TIME, pyparsing.bind, pyparsing.ret.
  destruct (text_parser.TWO_DIGITS s) as [[h s1]|] eqn:Hh; [|discriminate].
  destruct (pyparsing.Literal ":" s1) as [[c1 s2]|]; [|discriminate].
  destruct (text_parser.TWO_DIGITS s2) as [[m s3]|] eqn:Hm; [|discriminate].
  destruct (pyparsing.Literal ":" s3) as [[c2 s4]|]; [|discriminate].
  destruct (text_parser.TWO_DIGITS s4) as [[x s5]|] eqn:Hs; [|discriminate].
  intros [= <- <- <- <-].
  rewrite (TWO_DIGITS_spec _ Hh), (TWO_DIGITS_spec _ Hm),
    (TWO_DIGITS_spec _ Hs). reflexivity.
Qed.

Lemma word_spec (p : ascii -> bool) (c : ascii) (body : string) :
  p c = true -> Text.all_chars p body = true ->
  Text.word p (String c body) = true.
Proof.
  intros Hc Hbody. unfold Text.word. cbn. rewrite Hc, Hbody. reflexivity.
Qed.

Lemma printable_word (s token rest : string) :
  pyparsing.Word pyparsing.printables pyparsing.printables 1 0 0 s
  = Some (token, rest) ->
  Text.word pyparsing.printables token = true.
Proof.
  intros H. apply Word_spec in H.
  destruct H as (c & body & -> & Hc & Hbody & _).
  apply word_spec; assumption.
Qed.

Lemma CharsNotIn_spec (notChars s token rest : string) :
  pyparsing.CharsNotIn notChars s = Some (token, rest) ->
  Text.word (Text.lacks notChars) token = true.
Proof.
  unfold pyparsing.CharsNotIn.
  destruct (pyparsing.span_upto (fun c => negb (pyparsing.mem c notChars))
              None s) as [a b] eqn:Hspan.
  destruct (span_upto_spec _ _ _ Hspan) as [Hall _].
  destruct a as [|c body]; [discriminate|].
  intros [= <- <-].
  cbn [Text.all_chars] in Hall. apply andb_true_iff in Hall.
  destruct Hall as [Hc Hbody].
  apply word_spec; assumption.
Qed.

Lemma SkipTo_lineEnd_spec (s token rest : string) :
  pyparsing.SkipTo_lineEnd s = Some (token, rest) ->
  Text.all_chars (fun c => negb (Ascii.eqb c pyparsing.LF)) token = true.
Proof.
  unfold pyparsing.SkipTo_lineEnd. intros [= H].
  exact (proj1 (span_upto_spec _ _ _ H)).
Qed.

(** X17: the fields of a line that parses as a full record.  The month
    is a capital and two small letters; day, hour, minute and second are
    numbers from 0 to 99, not checked against the calendar; computer
    name and agent are runs of printable characters; status and process
    name are not empty and hold no [>] and no [:]; the action holds no
    line feed. *)
Theorem X17_FIREWALL_LINE_fields (line : string) (r : ParseResults.t) :
  pyparsing.parseString FIREWALL_LINE line = Some r ->
  Text.date_fields r = true
  /\ Text.word pyparsing.printables (ParseResults.computer_name r) = true
  /\ Text.word pyparsing.printables (ParseResults.agent r) = true
  /\ Text.word (Text.lacks ">") (ParseResults.status r) = true
  /\ Text.word (Text.lacks ":") (ParseResults.process_name r) = true
  /\ Text.all_chars (fun c => negb (Ascii.eqb c pyparsing.LF))
       (ParseResults.action r) = true.
Proof.
  unfold pyparsing.parseString.
  destruct (FIREWALL_LINE (pyparsing.expandtabs_from 0 line))
    as [[r' rest]|] eqn:Hparse; [|discriminate].
  intros [= ->]. revert Hparse.
  generalize (pyparsing.expandtabs_from 0 line). intros s.
  unfold FIREWALL_LINE, pyparsing.bind, pyparsing.ret.
  destruct (text_parser.MONTH s) as [[month s1]|] eqn:Hmonth; [|discriminate].
  destruct (text_parser.ONE_OR_TWO_DIGITS s1) as [[day s2]|] eqn:Hday;
    [|discriminate].
  destruct (text_parser.TIME s2) as [[[[hour minute] second] s3]|] eqn:Htime;
    [|discriminate].
  destruct (pyparsing.Word pyparsing.printables pyparsing.printables 1 0 0 s3)
    as [[computer_name s4]|] eqn:Hcomputer; [|discriminate].
  destruct (pyparsing.Word pyparsing.printables pyparsing.printables 1 0 0 s4)
    as [[agent s5]|] eqn:Hagent; [|discriminate].
  destruct (pyparsing.Literal "<" s5) as [[l1 s6]|]; [|discriminate].
  destruct (pyparsing.CharsNotIn ">" s6) as [[status s7]|] eqn:Hstatus;
    [|discriminate].
  destruct (pyparsing.Literal ">:" s7) as [[l2 s8]|]; [|discriminate].
  destruct (pyparsing.CharsNotIn ":" s8) as [[process_name s9]|] eqn:Hprocess;
    [|discriminate].
  destruct (pyparsing.Literal ":" s9) as [[l3 s10]|]; [|discriminate].
  destruct (pyparsing.SkipTo_lineEnd s10) as [[action s11]|] eqn:Haction;
    [|discriminate].
  intros [= <- <-].
  unfold Text.date_fields.
  cbn [ParseResults.month ParseResults.day ParseResults.time
       ParseResults.computer_name ParseResults.agent ParseResults.status
       ParseResults.process_name ParseResults.action].
  rewrite (MONTH_spec _ Hmonth), (ONE_OR_TWO_DIGITS_spec _ Hday),
    (TIME_spec _ Htime).
  repeat split.
  - exact (printable_word _ Hcomputer).
  - exact (printable_word _ Hagent).
  - exact (CharsNotIn_spec _ _ Hstatus).
  - exact (CharsNotIn_spec _ _ Hprocess).
  - exact (SkipTo_lineEnd_spec Haction).
Qed.

Lemma X17_FIREWALL_LINE_fields_witness :
  Text.date_fields Scenario.dropbox = true
  /\ Text.word pyparsing.printables
       (ParseResults.computer_name Scenario.dropbox) = true
  /\ Text.word pyparsing.printables (ParseResults.agent Scenario.dropbox)
     = true
  /\ Text.word (Text.lacks ">") (ParseResults.status Scenario.dropbox) = true
  /\ Text.word (Text.lacks ":") (ParseResults.process_name Scenario.dropbox)
     = true
  /\ Text.all_chars (fun c => negb (Ascii.eqb c pyparsing.LF))
       (ParseResults.action Scenario.dropbox) = true.
Proof.
  apply (@X17_FIREWALL_LINE_fields Scenario.dropbox_line Scenario.dropbox).
  vm_compute. reflexivity.
Defined.

(** X18: the fields of a line that parses as a repeated marker.  Month,
    day and time are as in a full record; the text between the markers
    is not empty and holds no [-]; computer name, agent, status and
    action are empty. *)
Theorem X18_REPEATED_LINE_fields (line : string) (r : ParseResults.t) :
  pyparsing.parseString REPEATED_LINE line = Some r ->
  Text.date_fields r = true
  /\ Text.word (Text.lacks "---") (ParseResults.process_name r) = true
  /\ ParseResults.computer_name r = EmptyString
  /\ ParseResults.agent r = EmptyString
  /\ ParseResults.status r = EmptyString
  /\ ParseResults.action r = EmptyString.
Proof.
  unfold pyparsing.parseString.
  destruct (REPEATED_LINE (pyparsing.expandtabs_from 0 line))
    as [[r' rest]|] eqn:Hparse; [|discriminate].
  intros [= ->]. revert Hparse.
  generalize (pyparsing.expandtabs_from 0 line). intros s.
  unfold REPEATED_LINE, pyparsing.bind, pyparsing.ret.
  destruct (text_parser.MONTH s) as [[month s1]|] eqn:Hmonth; [|discriminate].
  destruct (text_parser.ONE_OR_TWO_DIGITS s1) as [[day s2]|] eqn:Hday;
    [|discriminate].
  destruct (text_parser.TIME s2) as [[[[hour minute] second] s3]|] eqn:Htime;
    [|discriminate].
  destruct (pyparsing.Literal "---" s3) as [[l1 s4]|]; [|discriminate].
  destruct (pyparsing.CharsNotIn "---" s4) as [[process_name s5]|]
    eqn:Hprocess; [|discriminate].
  destruct (pyparsing.Literal "---" s5) as [[l2 s6]|]; [|discriminate].
  intros [= <- <-].
  unfold Text.date_fields.
  cbn [ParseResults.month ParseResults.day ParseResults.time
       ParseResults.computer_name ParseResults.agent ParseResults.status
       ParseResults.process_name ParseResults.action].
  rewrite (MONTH_spec _ Hmonth), (ONE_OR_TWO_DIGITS_spec _ Hday),
    (TIME_spec _ Htime).
  repeat split.
  exact (CharsNotIn_spec _ _ Hprocess).
Qed.

Lemma X18_REPEATED_LINE_fields_witness :
  Text.date_fields Scenario.last_message_repeated = true
  /\ Text.word (Text.lacks "---")
       (ParseResults.process_name Scenario.last_message_repeated) = true
  /\ ParseResults.computer_name Scenario.last_message_repeated = EmptyString
  /\ ParseResults.agent Scenario.last_message_repeated = EmptyString
  /\ ParseResults.status Scenario.last_message_repeated = EmptyString
  /\ ParseResults.action Scenario.last_message_repeated = EmptyString.
Proof.
  apply (@X18_REPEATED_LINE_fields Scenario.last_message_repeated_line
           Scenario.last_message_repeated).
  vm_compute. reflexivity.
Defined.
